(** * Sentiment analysis of non-English code-review comments

    A shallow embedding of [sentiment_analyzer.py]: the comment pipeline of
    [SentimentAnalyzer] (language detection against an allow-list,
    translation with fallback, sentiment classification, and the report
    posted on the pull request), with the properties of its specification.

    Python values are modelled as follows.
    - [str] is a sequence of Unicode code points, so [len] and slicing count
      code points as Python does.
    - [float] is Rocq's primitive binary64 float, the same IEEE 754 double
      as a Python float; [round(x, n)] and [str(x)] are modelled exactly
      over the binary value.
    - A call that can raise returns an [outcome]; [print] and
      [requests.post] are recorded as a trace of [event]s.
    - The external libraries (langdetect, Google Translate, TextBlob,
      requests) are the variables of the section [Analyzer].

    [get_pr_comments] and [main] are embedded after the pipeline; there the
    environment, the event file and [requests.get] are variables too. *)

From Stdlib Require Import ZArith QArith Qround Qpower List String Ascii Bool Lia.
From Stdlib Require Import Floats DecimalString.
Import ListNotations.
Close Scope Q_scope.

(** ** Python strings *)

Definition codepoint := N.
Definition str := list codepoint.

(** An ASCII literal as a [str]. *)
Fixpoint lit (s : string) : str :=
  match s with
  | EmptyString => []
  | String a rest => N_of_ascii a :: lit rest
  end.

(** The line feed written [\n] in the source. *)
Definition nl : str := [10%N].

Fixpoint str_eqb (a b : str) : bool :=
  match a, b with
  | [], [] => true
  | x :: a', y :: b' => N.eqb x y && str_eqb a' b'
  | _, _ => false
  end.

(** [x in xs] for a list of strings. *)
Definition str_in (x : str) (xs : list str) : bool :=
  existsb (str_eqb x) xs.

(** [len(s)] *)
Definition len (s : str) : Z := Z.of_nat (List.length s).

(** [s[:n]] for a non-negative [n]. *)
Definition slice_to (n : nat) (s : str) : str := firstn n s.

(** [str.upper] on the ASCII letters; the other code points of the strings
    it is applied to here (the three sentiment names) do not occur. *)
Definition upper_cp (c : codepoint) : codepoint :=
  if (97 <=? c)%N && (c <=? 122)%N then (c - 32)%N else c.

Definition upper (s : str) : str := map upper_cp s.

(** [str(n)] for an [int]. *)
Definition str_of_int (n : Z) : str :=
  lit (NilZero.string_of_int (Z.to_int n)).

(** A [dict] with string keys and string values. *)
Definition dict := list (str * str).

Fixpoint dict_get (d : dict) (k : str) : option str :=
  match d with
  | [] => None
  | (k', v) :: rest => if str_eqb k' k then Some v else dict_get rest k
  end.

(** ** Exceptions and effects *)

(** The exception classes that occur; each derives from [Exception]. *)
Inductive exn_class :=
| Exception
| LangDetectException
| KeyError
| OtherError (name : str).

Record exn := mk_exn { exn_cls : exn_class; exn_str : str }.

Definition exn_class_eqb (c d : exn_class) : bool :=
  match c, d with
  | Exception, Exception => true
  | LangDetectException, LangDetectException => true
  | KeyError, KeyError => true
  | OtherError a, OtherError b => str_eqb a b
  | _, _ => false
  end.

(** [isinstance(e, cls)] *)
Definition isinstance (e : exn) (cls : exn_class) : bool :=
  match cls with
  | Exception => true
  | _ => exn_class_eqb (exn_cls e) cls
  end.

Inductive outcome (A : Type) :=
| Return (a : A)
| Raise (e : exn).
Arguments Return {A} a.
Arguments Raise {A} e.

Inductive event :=
| Print (line : str)
| HttpPost (url : str) (headers : dict) (json : dict).

(** A computation: the events it emitted, then its outcome. *)
Definition M (A : Type) : Type := list event * outcome A.

Definition ret {A} (a : A) : M A := ([], Return a).

Definition bind {A B} (m : M A) (f : A -> M B) : M B :=
  match m with
  | (t, Return a) => let (t', r) := f a in (t ++ t', r)
  | (t, Raise e) => (t, Raise e)
  end.

Definition lift {A} (o : outcome A) : M A := ([], o).

Definition print (line : str) : M unit := ([Print line], Return tt).

(** [try: body except cls as e: handler e] *)
Definition try_except {A} (body : M A) (cls : exn_class) (handler : exn -> M A) : M A :=
  match body with
  | (t, Return a) => (t, Return a)
  | (t, Raise e) =>
      if isinstance e cls then let (t', r) := handler e in (t ++ t', r)
      else (t, Raise e)
  end.

Declare Scope py_scope.
Delimit Scope py_scope with py.
Notation "x <- m ;; k" := (bind m (fun x => k))
  (at level 61, m at next level, right associativity) : py_scope.
Notation "m ;;; k" := (bind m (fun _ => k))
  (at level 61, right associativity) : py_scope.

(** [d[k]], raising [KeyError(k)] when the key is absent; [str] of that
    exception is the quoted key. *)
Definition getitem (d : dict) (k : str) : outcome str :=
  match dict_get d k with
  | Some v => Return v
  | None => Raise (mk_exn KeyError (lit "'" ++ k ++ lit "'"))
  end.

(** ** Python floats

    [round(x, ndigits)] and [str(x)] of CPython, over the exact binary
    value of the double.  Both are defined with exact rational arithmetic:
    - [round] rounds the exact value to [ndigits] decimals, ties to even,
      and returns the double nearest to that decimal;
    - [str] prints the shortest decimal that reads back as the same
      double, in positional notation when the decimal point falls within
      [(-4, 16]] and in exponent notation otherwise. *)

Module PyFloat.
Local Open Scope Q_scope.

Definition Qpow10 (k : Z) : Q := Qpower (10 # 1) k.
Definition Qpow2 (k : Z) : Q := Qpower (2 # 1) k.

(** The exact value of a finite double with mantissa [m] and exponent [e]. *)
Definition Qvalue (m : positive) (e : Z) : Q :=
  (inject_Z (Zpos m) * Qpow2 e)%Q.

(** The double nearest to [n / d], with sign [s]. *)
Definition nearest_float (s : bool) (n d : positive) : float :=
  SF2Prim (SFdiv prec emax (S754_finite s n 0) (S754_finite false d 0)).

Definition round_half_even (q : Q) : Z :=
  let f := Qfloor q in
  match Qcompare (q - inject_Z f) (1 # 2) with
  | Lt => f
  | Gt => (f + 1)%Z
  | Eq => if Z.even f then f else (f + 1)%Z
  end.

Definition signed_zero (s : bool) : float :=
  if s then neg_zero else zero.

(** [round(x, ndigits)] for [ndigits >= 0]. *)
Definition py_round (x : float) (ndigits : N) : float :=
  match Prim2SF x with
  | S754_finite s m e =>
      match round_half_even (Qvalue m e * Qpow10 (Z.of_N ndigits)) with
      | Zpos k => nearest_float s k (Z.to_pos (10 ^ Z.of_N ndigits)%Z)
      | _ => signed_zero s
      end
  | _ => x
  end.

Definition digits_of (n : positive) : str :=
  lit (NilZero.string_of_uint (Pos.to_uint n)).

(** The least [k' >= k] with [v < 10^k'], searching upwards from [k]. *)
Fixpoint find_decpt (fuel : nat) (k : Z) (v : Q) : Z :=
  match fuel with
  | O => k
  | S fuel' => if Qle_bool (Qpow10 k) v then find_decpt fuel' (k + 1)%Z v else k
  end.

(** The position of the decimal point of [m * 2^e]: the [k] with
    [10^(k-1) <= m * 2^e < 10^k].  The search starts from a lower bound
    computed from the binary exponent. *)
Definition decimal_point (m : positive) (e : Z) : Z :=
  let b := (Zdigits2 (Zpos m) + e - 1)%Z in
  find_decpt 8 (Z.min (b * 30102 / 100000) (b * 30103 / 100000)) (Qvalue m e).

(** Whether the decimal [c] reads back as the double whose rounding
    interval is [lo, hi] (closed when the mantissa is even). *)
Definition reads_back (lo hi : Q) (closed : bool) (c : Q) : bool :=
  if closed then Qle_bool lo c && Qle_bool c hi
  else negb (Qle_bool c lo) && negb (Qle_bool hi c).

(** The shortest decimal [d * 10^p] that reads back as [v], trying
    [n], [n+1], ... significant digits; among the two [n]-digit
    neighbours of [v] the nearer one is taken. *)
Fixpoint shortest_digits (fuel : nat) (n : Z) (v lo hi : Q) (closed : bool)
         (decpt : Z) : Z * Z :=
  let scale := Qpow10 (decpt - n) in
  let dl := Qfloor (v / scale) in
  let dh := (dl + 1)%Z in
  let cl := (inject_Z dl * scale)%Q in
  let ch := (inject_Z dh * scale)%Q in
  let nearer :=
    match Qcompare (v - cl) (ch - v) with
    | Lt => dl
    | Gt => dh
    | Eq => if Z.even dl then dl else dh
    end in
  match fuel with
  | O => (nearer, (decpt - n)%Z)
  | S fuel' =>
      match reads_back lo hi closed cl, reads_back lo hi closed ch with
      | true, true => (nearer, (decpt - n)%Z)
      | true, false => (dl, (decpt - n)%Z)
      | false, true => (dh, (decpt - n)%Z)
      | false, false => shortest_digits fuel' (n + 1)%Z v lo hi closed decpt
      end
  end.

Definition zeros (n : Z) : str := repeat 48%N (Z.to_nat n).

Fixpoint strip_leading_zeros (ds : str) : str :=
  match ds with
  | 48%N :: rest => strip_leading_zeros rest
  | _ => ds
  end.

Definition strip_trailing_zeros (ds : str) : str :=
  rev (strip_leading_zeros (rev ds)).

(** The exponent of the [e] notation: a sign and at least two digits. *)
Definition exponent_str (e : Z) : str :=
  let a := lit (NilZero.string_of_uint (N.to_uint (Z.to_N (Z.abs e)))) in
  (if (e <? 0)%Z then lit "-" else lit "+")
    ++ (if (Z.abs e <? 10)%Z then 48%N :: a else a).

(** The digits [ds], read as [0.ds * 10^decpt], in [repr] format. *)
Definition format_repr (ds : str) (decpt : Z) : str :=
  let n := Z.of_nat (List.length ds) in
  if ((-4 <? decpt) && (decpt <=? 16))%Z%bool then
    if (decpt <=? 0)%Z then lit "0." ++ zeros (- decpt) ++ ds
    else if (n <=? decpt)%Z then ds ++ zeros (decpt - n) ++ lit ".0"
    else firstn (Z.to_nat decpt) ds ++ lit "." ++ skipn (Z.to_nat decpt) ds
  else
    firstn 1 ds
      ++ (match skipn 1 ds with [] => [] | frac => lit "." ++ frac end)
      ++ lit "e" ++ exponent_str (decpt - 1).

(** [str(x)], which is also what an f-string field [{x}] prints. *)
Definition float_str (x : float) : str :=
  match Prim2SF x with
  | S754_nan => lit "nan"
  | S754_infinity s => if s then lit "-inf" else lit "inf"
  | S754_zero s => if s then lit "-0.0" else lit "0.0"
  | S754_finite s m e =>
      let v := Qvalue m e in
      let half := Qpow2 (e - 1) in
      let hi := (v + half)%Q in
      let lo :=
        if ((m =? 4503599627370496)%positive && (-1074 <? e)%Z)%bool
        then (v - Qpow2 (e - 2))%Q else (v - half)%Q in
      let '(d, p) :=
        shortest_digits 16 1 v lo hi (Z.even (Zpos m)) (decimal_point m e) in
      let ds := digits_of (Z.to_pos d) in
      (if s then lit "-" else [])
        ++ format_repr (strip_trailing_zeros ds) (p + Z.of_nat (List.length ds))
  end.

End PyFloat.
Import PyFloat.

(** *** The shape of a printed polarity

    An optional sign, an integer part, a point, and one or two decimals of
    which the second is not a padding zero. *)

Definition is_digit (c : codepoint) : bool := (48 <=? c)%N && (c <=? 57)%N.

Fixpoint split_at_point (s : str) : option (str * str) :=
  match s with
  | [] => None
  | c :: rest =>
      if (c =? 46)%N then Some ([], rest)
      else match split_at_point rest with
           | Some (a, b) => Some (c :: a, b)
           | None => None
           end
  end.

Definition at_most_two_decimals (s : str) : bool :=
  let unsigned := match s with 45%N :: rest => rest | _ => s end in
  match split_at_point unsigned with
  | Some (c :: whole, [d]) => forallb is_digit (c :: whole) && is_digit d
  | Some (c :: whole, [d; d']) =>
      forallb is_digit (c :: whole) && is_digit d && is_digit d'
        && negb (d' =? 48)%N
  | _ => false
  end.

(** The numerators [1 .. 100] of the non-zero hundredths of [0, 1]. *)
Definition hundredths : list positive := map Pos.of_nat (seq 1 100).

(** ** The data model *)

(** The three sentiment names of [analyze_sentiment]. *)
Inductive SentimentClass := Positive | Negative | Neutral.

Definition sentiment_name (c : SentimentClass) : str :=
  match c with
  | Positive => lit "positive"
  | Negative => lit "negative"
  | Neutral => lit "neutral"
  end.

(** The dictionary returned by [analyze_sentiment]. *)
Record SentimentResult := mk_sentiment {
  sentiment : SentimentClass;
  polarity : float;
  subjectivity : float
}.

(** The dictionary returned by [process_comment]. *)
Record AnalysisRecord := mk_record {
  original_text : str;
  detected_language : str;
  translated_text : str;
  sentiment_analysis : SentimentResult
}.

Record SentimentAnalyzer := mk_analyzer {
  github_token : str;
  headers : dict
}.

(** [SentimentAnalyzer.__init__] *)
Definition init (github_token : str) : SentimentAnalyzer :=
  {| github_token := github_token;
     headers := [ (lit "Authorization", lit "token " ++ github_token);
                  (lit "Accept", lit "application/vnd.github.v3+json") ] |}.

Definition SUPPORTED_LANGUAGES : list str := [lit "de"; lit "es"].

#[local] Set Warnings "-inexact-float".

(** Lines 50-55 of [analyze_sentiment]: the class of a polarity. *)
Definition classify_polarity (polarity : float) : SentimentClass :=
  if (0.1 <? polarity)%float then Positive
  else if (polarity <? - 0.1)%float then Negative
  else Neutral.

(** The truth value of an [Optional[str]]: [None] and the empty string
    are false. *)
Definition truthy (o : option str) : bool :=
  match o with
  | None | Some [] => false
  | Some (_ :: _) => true
  end.

(** ** The pipeline *)

Section Analyzer.

(** [langdetect.detect] *)
Variable detect : str -> outcome str.
(** [translate_client.translate_text(text, source_language, target_language)] *)
Variable translate_text : str -> str -> str -> outcome dict.
(** [TextBlob(text).sentiment], as [(polarity, subjectivity)] *)
Variable TextBlob : str -> float * float.
(** [requests.post(url, headers, json)], as the response's status code *)
Variable requests_post : str -> dict -> dict -> outcome Z.

Definition detect_language (text : str) : outcome (option str) :=
  match detect text with
  | Return lang =>
      Return (if str_in lang SUPPORTED_LANGUAGES then Some lang else None)
  | Raise e =>
      if isinstance e LangDetectException then Return None else Raise e
  end.

Definition translate_to_english (text source_language : str) : M str :=
  try_except
    (result <- lift (translate_text text source_language (lit "en")) ;;
     lift (getitem result (lit "translatedText")))%py
    Exception
    (fun e =>
       (print (lit "[v0] Translation error: " ++ exn_str e) ;;;
        ret text)%py).

Definition analyze_sentiment (text : str) : SentimentResult :=
  let blob := TextBlob text in
  let polarity := fst blob in
  let sentiment := classify_polarity polarity in
  {| sentiment := sentiment;
     polarity := py_round polarity 2;
     subjectivity := py_round (snd blob) 2 |}.

Definition process_comment (comment_text : str) : M (option AnalysisRecord) :=
  (lang <- lift (detect_language comment_text) ;;
   if negb (truthy lang) then ret None
   else
     match lang with
     | None => ret None
     | Some lang =>
         print (lit "[v0] Detected language: " ++ lang) ;;;
         translated_text <- translate_to_english comment_text lang ;;
         print (lit "[v0] Translated text: " ++ translated_text) ;;;
         let sentiment_result := analyze_sentiment translated_text in
         ret (Some {| original_text := comment_text;
                      detected_language := lang;
                      translated_text := translated_text;
                      sentiment_analysis := sentiment_result |})
     end)%py.

(** The first cell of a report row (line 108). *)
Definition display_original (result : AnalysisRecord) : str :=
  if (len (original_text result) >? 50)%Z
  then slice_to 50 (original_text result) ++ lit "..."
  else original_text result.

(** The second cell of a report row (line 109). *)
Definition lang_name (result : AnalysisRecord) : str :=
  if str_eqb (detected_language result) (lit "de")
  then lit "German" else lit "Spanish".

(** The text that one iteration of the loop adds to [comment_body]. *)
Definition render_row (result : AnalysisRecord) : str :=
  let original := display_original result in
  let lang_name := lang_name result in
  let sentiment := upper (sentiment_name (sentiment (sentiment_analysis result))) in
  let polarity := polarity (sentiment_analysis result) in
  lit "| " ++ original ++ lit " | " ++ lang_name ++ lit " | " ++ sentiment
    ++ lit " | " ++ float_str polarity ++ lit " |" ++ nl.

Definition report_header : str :=
  (lit "## Sentiment Analysis Report" ++ nl ++ nl)
    ++ (lit "| Original | Language | Sentiment | Polarity |" ++ nl)
    ++ (lit "|----------|----------|-----------|----------|" ++ nl).

(** Lines 103-113: the header, then the loop over the results. *)
Definition build_comment_body (analysis_results : list AnalysisRecord) : str :=
  fold_left (fun comment_body result => comment_body ++ render_row result)
            analysis_results report_header.

Definition post_sentiment_comment (self : SentimentAnalyzer) (repo : str)
           (pr_number : Z) (analysis_results : list AnalysisRecord) : M unit :=
  match analysis_results with
  | [] => ret tt
  | _ :: _ =>
      let comment_body := build_comment_body analysis_results in
      let url := lit "https://api.github.com/repos/" ++ repo ++ lit "/issues/"
                   ++ str_of_int pr_number ++ lit "/comments" in
      let payload := [(lit "body", comment_body)] in
      (status_code <- ([HttpPost url (headers self) payload],
                       requests_post url (headers self) payload) ;;
       if (status_code =? 201)%Z
       then print (lit "[v0] Comment posted successfully")
       else print (lit "[v0] Error posting comment: " ++ str_of_int status_code))%py
  end.

End Analyzer.

(** ** Stub collaborators

    The end-to-end scenario of the specification: a German comment, an
    English one, and fixed scores. *)

Module Stub.

(** "Das ist großartig!"; the sharp s is U+00DF. *)
Definition das_ist_grossartig : str :=
  lit "Das ist gro" ++ [223%N] ++ lit "artig!".

Definition hello_there : str := lit "Hello there".

Definition no_features : exn :=
  mk_exn LangDetectException (lit "No features in text.").

Definition detect (text : str) : outcome str :=
  if str_eqb text das_ist_grossartig then Return (lit "de")
  else if str_eqb text [] then Raise no_features
  else Return (lit "en").

Definition translate_text (text source_language target_language : str)
  : outcome dict :=
  if str_eqb text das_ist_grossartig
  then Return [(lit "translatedText", lit "That's great!")]
  else Return [(lit "translatedText", text)].

Definition unavailable : exn :=
  mk_exn (OtherError (lit "ServiceUnavailable")) (lit "503 quota exceeded").

(** A translation service that always fails. *)
Definition translate_fails (text source_language target_language : str)
  : outcome dict :=
  Raise unavailable.

(** A translation service that answers without a [translatedText] key. *)
Definition translate_malformed (text source_language target_language : str)
  : outcome dict :=
  Return [(lit "error", lit "bad request")].

(** A scorer with a fixed polarity and subjectivity. *)
Definition scorer (p s : float) (text : str) : float * float := (p, s).

Definition TextBlob : str -> float * float := scorer 0.8 0.75.

Definition requests_post (url : str) (hdrs json : dict) : outcome Z :=
  Return 201%Z.

(** The record of the German comment with the scores [(0.8, 0.75)]. *)
Definition scenario_record : AnalysisRecord :=
  {| original_text := das_ist_grossartig;
     detected_language := lit "de";
     translated_text := lit "That's great!";
     sentiment_analysis :=
       {| sentiment := Positive; polarity := 0.8; subjectivity := 0.75 |} |}.

(** Its row in the report. *)
Definition scenario_row : str :=
  lit "| Das ist gro" ++ [223%N]
    ++ lit "artig! | German | POSITIVE | 0.8 |" ++ nl.

(** The row with an ellipsis and a padded polarity. *)
Definition padded_row : str :=
  lit "| Das ist gro" ++ [223%N]
    ++ lit "artig!... | German | POSITIVE | 0.80 |" ++ nl.

(** A comment of 70 characters. *)
Definition long_comment : str :=
  lit "Diese Funktion ist viel zu lang und sollte dringend aufgeteilt werden.".

Definition long_record : AnalysisRecord :=
  {| original_text := long_comment;
     detected_language := lit "de";
     translated_text :=
       lit "This function is far too long and should urgently be split up.";
     sentiment_analysis :=
       {| sentiment := Neutral; polarity := (- 0.03)%float; subjectivity := 0.45 |} |}.

(** A record whose language code is outside the supported set. *)
Definition french_record : AnalysisRecord :=
  {| original_text := lit "C'est parfait";
     detected_language := lit "fr";
     translated_text := lit "It's perfect";
     sentiment_analysis :=
       {| sentiment := Positive; polarity := 1; subjectivity := 1 |} |}.

End Stub.

(** ** Fetching the comments and the entry point

    The GitHub side of the program: [get_pr_comments] and [main].  A
    review comment is a JSON object, read here as a [dict]; of the event
    file only [pull_request.number] is read, so the event is the record of
    that path: the [pull_request] object when the key is present, and its
    [number] when that key is present.  [os.getenv] gives [None] for a
    variable that is not set. *)

(** The response of [requests.get]: its status code and what
    [response.json()] gives. *)
Record Response := mk_response {
  status_code : Z;
  response_json : outcome (list dict)
}.

Record PullRequest := mk_pull_request { number : option Z }.

Record GithubEvent := mk_github_event { pull_request : option PullRequest }.

(** The truth value of an [Optional[int]]: [None] and [0] are false. *)
Definition truthy_int (o : option Z) : bool :=
  match o with
  | None | Some 0%Z => false
  | Some _ => true
  end.

(** The posts of a trace. *)
Definition is_post (e : event) : bool :=
  match e with
  | HttpPost _ _ _ => true
  | Print _ => false
  end.

Definition posts (trace : list event) : list event := filter is_post trace.


Section Entry.

Variable detect : str -> outcome str.
Variable translate_text : str -> str -> str -> outcome dict.
Variable TextBlob : str -> float * float.
Variable requests_post : str -> dict -> dict -> outcome Z.
(** [requests.get(url, headers)] *)
Variable requests_get : str -> dict -> outcome Response.
(** [os.getenv] *)
Variable getenv : str -> option str.
(** [json.load] of the file at a path *)
Variable load_event : str -> outcome GithubEvent.

Definition get_pr_comments (self : SentimentAnalyzer) (repo : str)
           (pr_number : Z) : M (list dict) :=
  let url := lit "https://api.github.com/repos/" ++ repo ++ lit "/pulls/"
               ++ str_of_int pr_number ++ lit "/comments" in
  (response <- lift (requests_get url (headers self)) ;;
   if (status_code response =? 200)%Z
   then lift (response_json response)
   else
     print (lit "[v0] Error fetching comments: "
              ++ str_of_int (status_code response)) ;;;
     ret [])%py.

(** Lines 156-161 of [main]: the loop that fills [analysis_results]. *)
Fixpoint main_loop (comments : list dict)
         (analysis_results : list AnalysisRecord) : M (list AnalysisRecord) :=
  match comments with
  | [] => ret analysis_results
  | comment :: comments' =>
      (body <- lift (getitem comment (lit "body")) ;;
       result <- process_comment detect translate_text TextBlob body ;;
       match result with
       | Some r =>
           print (lit "[v0] Analyzed: "
                    ++ sentiment_name (sentiment (sentiment_analysis r))) ;;;
           main_loop comments' (analysis_results ++ [r])
       | None => main_loop comments' analysis_results
       end)%py
  end.

(** The records that the loop collects from the bodies of the comments,
    in order: one for each body that [process_comment] does not skip. *)
Definition records_of (bodies : list str) : list AnalysisRecord :=
  flat_map (fun body =>
              match snd (process_comment detect translate_text TextBlob body) with
              | Return (Some r) => [r]
              | _ => []
              end) bodies.

(** Whether [detect] finds a supported language in a body. *)
Definition supported_body (body : str) : bool :=
  match detect body with
  | Return lang => str_in lang SUPPORTED_LANGUAGES
  | Raise _ => false
  end.

(** Lines 146-167 of [main]: what it does once it has the token, the
    repository and a pull request number. *)
Definition main_analyze (github_token github_repository : str)
           (pr_number : Z) : M unit :=
  (print (lit "[v0] Processing PR #" ++ str_of_int pr_number
            ++ lit " in " ++ github_repository) ;;;
   let analyzer := init github_token in
   comments <- get_pr_comments analyzer github_repository pr_number ;;
   print (lit "[v0] Found " ++ str_of_int (Z.of_nat (List.length comments))
            ++ lit " comments") ;;;
   analysis_results <- main_loop comments [] ;;
   match analysis_results with
   | _ :: _ =>
       post_sentiment_comment requests_post analyzer
         github_repository pr_number analysis_results
   | [] =>
       print (lit "[v0] No non-English comments found to analyze")
   end)%py.

Definition main : M unit :=
  let github_token := getenv (lit "GITHUB_TOKEN") in
  let github_repository := getenv (lit "GITHUB_REPOSITORY") in
  let github_event_path := getenv (lit "GITHUB_EVENT_PATH") in
  if negb (forallb truthy [github_token; github_repository; github_event_path])
  then print (lit "[v0] Missing required environment variables")
  else
    match github_token, github_repository, github_event_path with
    | Some github_token, Some github_repository, Some github_event_path =>
        (event <- lift (load_event github_event_path) ;;
         let pr_number :=
           match pull_request event with
           | Some pr => number pr
           | None => None
           end in
         if negb (truthy_int pr_number)
         then print (lit "[v0] No PR number found in event")
         else
           match pr_number with
           | Some pr_number =>
               main_analyze github_token github_repository pr_number
           | None => ret tt
           end)%py
    | _, _, _ => ret tt
    end.

End Entry.

(** Collaborators for a run of [main]: a pull request with three review
    comments, the German one, the English one and an empty one. *)

Module Run.

Definition getenv (name : str) : option str :=
  if str_eqb name (lit "GITHUB_TOKEN") then Some (lit "t0ken")
  else if str_eqb name (lit "GITHUB_REPOSITORY") then Some (lit "octo/demo")
  else if str_eqb name (lit "GITHUB_EVENT_PATH") then Some (lit "/event.json")
  else None.

Definition load_event (path : str) : outcome GithubEvent :=
  Return {| pull_request := Some {| number := Some 7%Z |} |}.

Definition comments : list dict :=
  [ [(lit "id", lit "1"); (lit "body", Stub.das_ist_grossartig)];
    [(lit "id", lit "2"); (lit "body", Stub.hello_there)];
    [(lit "id", lit "3"); (lit "body", [])] ].

Definition requests_get (url : str) (hdrs : dict) : outcome Response :=
  Return {| status_code := 200; response_json := Return comments |}.

(** A comment object without a [body]. *)
Definition no_body : dict := [(lit "id", lit "4")].

Definition requests_get_no_body (url : str) (hdrs : dict) : outcome Response :=
  Return {| status_code := 200;
            response_json := Return (comments ++ [no_body]) |}.

Definition requests_get_forbidden (url : str) (hdrs : dict) : outcome Response :=
  Return {| status_code := 403; response_json := Return comments |}.

(** An environment without the token. *)
Definition getenv_no_token (name : str) : option str :=
  if str_eqb name (lit "GITHUB_TOKEN") then None else getenv name.

(** The event of a push: no [pull_request]. *)
Definition load_push_event (path : str) : outcome GithubEvent :=
  Return {| pull_request := None |}.

End Run.

(** Collaborators for the edges of the pipeline: a detector that fails
    with another exception than [LangDetectException], and a German
    comment of two lines. *)

Module Edge.

Definition runtime_error : exn :=
  mk_exn (OtherError (lit "RuntimeError")) (lit "profiles not loaded").

Definition detect_fails (text : str) : outcome str := Raise runtime_error.




End Edge.

(** Two float constants that differ. *)
Ltac float_neq :=
  let H := fresh in
  intro H;
  match type of H with
  | ?a = ?b => apply (f_equal (fun x => (x =? b)%float)) in H
  end;
  vm_compute in H; discriminate H.

(** Case analysis on the comparisons of exponents and mantissas. *)
Ltac order_cases :=
  repeat match goal with
         | |- context [Z.compare ?a ?b] =>
             destruct (Z.compare_spec a b); subst
         | |- context [Pos.compare_cont Eq ?a ?b] =>
             change (Pos.compare_cont Eq a b) with (Pos.compare a b);
             destruct (Pos.compare_spec a b); subst
         end.

(** ** Strings and computations: basic facts *)

Lemma str_eqb_eq (a b : str) : str_eqb a b = true <-> a = b.
Proof.
  revert b; induction a as [|x a IH]; intros [|y b]; simpl;
    try (split; [discriminate | discriminate]); [tauto|].
  rewrite andb_true_iff, N.eqb_eq, IH.
  split; [intros [-> ->]; reflexivity | intros [= -> ->]; auto].
Qed.

Lemma str_eqb_refl (a : str) : str_eqb a a = true.
Proof. apply str_eqb_eq; reflexivity. Qed.

Lemma str_eqb_neq (a b : str) : str_eqb a b = false <-> a <> b.
Proof.
  rewrite <- str_eqb_eq. destruct (str_eqb a b); split; congruence.
Qed.

Lemma str_in_In (x : str) (xs : list str) : str_in x xs = true <-> In x xs.
Proof.
  unfold str_in. rewrite existsb_exists. split.
  - intros [y [Hy Heq]]. apply str_eqb_eq in Heq. subst. exact Hy.
  - intros H. exists x. split; [exact H | apply str_eqb_refl].
Qed.

Lemma supported_iff (lang : str) :
  str_in lang SUPPORTED_LANGUAGES = true <-> lang = lit "de" \/ lang = lit "es".
Proof.
  rewrite str_in_In. unfold SUPPORTED_LANGUAGES. simpl.
  split; [intros [H | [H | []]] | intros [H | H]]; auto.
Qed.

Lemma supported_truthy (lang : str) :
  str_in lang SUPPORTED_LANGUAGES = true -> truthy (Some lang) = true.
Proof. rewrite supported_iff. intros [-> | ->]; reflexivity. Qed.

(** ** Floats: comparison *)

Lemma compare_cont_Eq (m n : positive) :
  Pos.compare_cont Eq m n = Eq -> m = n.
Proof. apply Pos.compare_eq. Qed.

Lemma SFcompare_Eq_inv (a b : spec_float) :
  SFcompare a b = Some Eq ->
  a = b \/ exists s s', a = S754_zero s /\ b = S754_zero s'.
Proof.
  destruct a as [s | s | | s m e], b as [s' | s' | | s' m' e']; simpl;
    try discriminate; try (destruct s; discriminate);
    try (destruct s'; discriminate).
  - eauto.
  - destruct s, s'; try discriminate; auto.
  - destruct s, s'; try discriminate;
      destruct (Z.compare e e') eqn:He; try discriminate;
      apply Z.compare_eq in He; subst e'; intros [= Hm];
      [apply (f_equal CompOpp) in Hm; rewrite CompOpp_involutive in Hm;
       simpl in Hm|];
      apply compare_cont_Eq in Hm; subst m'; auto.
Qed.

(** Two floats that compare equal compare alike with any third one. *)
Lemma SFcompare_Eq_compat (a b c : spec_float) :
  SFcompare a b = Some Eq ->
  SFcompare c a = SFcompare c b /\ SFcompare a c = SFcompare b c.
Proof.
  intros H. apply SFcompare_Eq_inv in H as [-> | (s & s' & -> & ->)].
  - split; reflexivity.
  - destruct c; split; reflexivity.
Qed.

Lemma ltb_eqb_compat (p q c : float) :
  (p =? q)%float = true ->
  (c <? p)%float = (c <? q)%float /\ (p <? c)%float = (q <? c)%float.
Proof.
  rewrite FloatAxioms.eqb_spec, !ltb_spec. unfold SFeqb, SFltb.
  destruct (SFcompare (Prim2SF p) (Prim2SF q)) as [[| |] |] eqn:H;
    try discriminate.
  intros _. destruct (SFcompare_Eq_compat _ _ (Prim2SF c) H) as [-> ->].
  split; reflexivity.
Qed.

(** A polarity below [-0.1] is not above [0.1]. *)
Lemma below_is_not_above (p : float) :
  (p <? - 0.1)%float = true -> (0.1 <? p)%float = false.
Proof.
  rewrite !ltb_spec. unfold SFltb.
  change (Prim2SF (- 0.1)) with (S754_finite true 7205759403792794 (-56)).
  change (Prim2SF 0.1) with (S754_finite false 7205759403792794 (-56)).
  destruct (Prim2SF p) as [[|] | [|] | | [|] m e]; cbn [SFcompare];
    first [discriminate | intros _; reflexivity].
Qed.

Lemma classify_polarity_eqb (p q : float) :
  (p =? q)%float = true -> classify_polarity p = classify_polarity q.
Proof.
  intros H. unfold classify_polarity.
  destruct (ltb_eqb_compat p q 0.1 H) as [-> _].
  destruct (ltb_eqb_compat p q (- 0.1) H) as [_ ->].
  reflexivity.
Qed.

(** ** Floats: the model on known values *)

Example str_of_a_tenth : float_str 0.1 = lit "0.1".
Proof. vm_compute. reflexivity. Qed.

Example str_of_a_sum : float_str (0.1 + 0.2) = lit "0.30000000000000004".
Proof. vm_compute. reflexivity. Qed.

Example str_of_a_large_float : float_str 1e16 = lit "1e+16".
Proof. vm_compute. reflexivity. Qed.

Example str_of_a_small_float : float_str 0.00001 = lit "1e-05".
Proof. vm_compute. reflexivity. Qed.

(** 0.125 is a tie and goes to the even 0.12; 2.675 is below the tie. *)
Example round_ties_to_even :
  py_round 0.125 2 = 0.12%float /\ py_round 0.375 2 = 0.38%float /\
  py_round 2.675 2 = 2.67%float.
Proof. repeat split; vm_compute; reflexivity. Qed.

Example round_keeps_the_sign_of_zero :
  float_str (py_round (- 0.001) 2) = lit "-0.0".
Proof. vm_compute. reflexivity. Qed.

(** ** Floats: rounding and printing *)

Section Rounding.
Local Open Scope Q_scope.

Lemma digits2_pos_bound (m : positive) :
  (Zpos m < 2 ^ Zpos (digits2_pos m))%Z.
Proof.
  induction m as [m IH | m IH |]; simpl digits2_pos;
    try rewrite Pos2Z.inj_succ, Z.pow_succ_r by lia; try lia.
Qed.

Lemma Qpow2_neg (n : Z) :
  (0 <= n)%Z -> Qpow2 (- n) == / inject_Z (2 ^ n).
Proof.
  intros H. unfold Qpow2. rewrite Qpower_opp, Zpower_Qpower by exact H.
  reflexivity.
Qed.

Lemma Qvalue_le_1 (m : positive) (e : Z) :
  (e <= 0)%Z -> (Zpos m <= 2 ^ (- e))%Z -> Qvalue m e <= 1.
Proof.
  intros He Hm. unfold Qvalue.
  replace e with (- - e)%Z by lia. rewrite Qpow2_neg by lia.
  apply Qle_shift_div_r.
  - change 0 with (inject_Z 0). rewrite <- Zlt_Qlt. apply Z.pow_pos_nonneg; lia.
  - rewrite Qmult_1_l, <- Zle_Qle. exact Hm.
Qed.

Lemma Qvalue_nonneg (m : positive) (e : Z) : 0 <= Qvalue m e.
Proof.
  unfold Qvalue. apply Qmult_le_0_compat.
  - change 0 with (inject_Z 0). rewrite <- Zle_Qle. lia.
  - apply Qpower_0_le. discriminate.
Qed.

Lemma round_half_even_bounds (q : Q) (n : Z) :
  0 <= q -> q <= inject_Z n ->
  (0 <= round_half_even q <= n)%Z.
Proof.
  intros H0 Hn.
  assert (Hf0 : (0 <= Qfloor q)%Z).
  { change 0%Z with (Qfloor 0). apply Qfloor_resp_le, H0. }
  assert (Hfn : (Qfloor q <= n)%Z).
  { rewrite <- (Qfloor_Z n). apply Qfloor_resp_le, Hn. }
  unfold round_half_even.
  assert (Hup : (Qfloor q = n)%Z -> (q - inject_Z (Qfloor q) ?= 1 # 2) = Lt).
  { intros ->. apply Qlt_alt. apply Qle_lt_trans with 0; [|reflexivity].
    apply (Qplus_le_l _ _ (inject_Z n)). ring_simplify. exact Hn. }
  destruct (q - inject_Z (Qfloor q) ?= 1 # 2) eqn:E.
  - destruct (Z.even (Qfloor q)); [lia|].
    destruct (Z.eq_dec (Qfloor q) n) as [Heq|]; [|lia].
    specialize (Hup Heq). discriminate.
  - lia.
  - destruct (Z.eq_dec (Qfloor q) n) as [Heq|]; [|lia].
    specialize (Hup Heq). discriminate.
Qed.

Lemma valid_mantissa_bound (s : bool) (m : positive) (e : Z) :
  valid_binary (S754_finite s m e) = true -> (Zpos m < 2 ^ 53)%Z.
Proof.
  unfold valid_binary, bounded, canonical_mantissa, fexp, SpecFloat.emin.
  rewrite andb_true_iff, Z.eqb_eq. intros [Hc _].
  apply Z.lt_le_trans with (1 := digits2_pos_bound m).
  apply Z.pow_le_mono_r; [lia|].
  change prec with 53%Z in Hc. lia.
Qed.

(** [<=] on two finite doubles of the same sign. *)
Lemma SFleb_finite (s : bool) (m1 m2 : positive) (e1 e2 : Z) :
  SFleb (S754_finite s m1 e1) (S754_finite s m2 e2) = true ->
  if s
  then ((e2 < e1)%Z \/ (e1 = e2 /\ (m2 <= m1)%positive))
  else ((e1 < e2)%Z \/ (e1 = e2 /\ (m1 <= m2)%positive)).
Proof.
  unfold SFleb. cbn [SFcompare].
  change (Pos.compare_cont Eq m1 m2) with (Pos.compare m1 m2).
  destruct s; destruct (Z.compare_spec e1 e2) as [He | He | He];
    try discriminate; try (intros _; left; exact He);
    destruct (Pos.compare_spec m1 m2) as [Hm | Hm | Hm];
    try discriminate; intros _; right; split; try exact He; lia.
Qed.

(** A finite double between -1 and 1 has an exact value of at most 1. *)
Lemma unit_interval_value (p : float) (s : bool) (m : positive) (e : Z) :
  Prim2SF p = S754_finite s m e ->
  (- 1 <=? p)%float = true -> (p <=? 1)%float = true ->
  Qvalue m e <= 1.
Proof.
  intros Hp Hlo Hhi.
  pose proof (Prim2SF_valid p) as Hv. rewrite Hp in Hv.
  apply valid_mantissa_bound in Hv.
  rewrite leb_spec, Hp in Hlo, Hhi.
  change (Prim2SF (- 1)) with (S754_finite true 4503599627370496 (-52)) in Hlo.
  change (Prim2SF 1) with (S754_finite false 4503599627370496 (-52)) in Hhi.
  assert (Hcases : (e < -52)%Z \/ ((e = -52)%Z /\ (m <= 4503599627370496)%positive)).
  { destruct s.
    - apply SFleb_finite in Hlo.
      destruct Hlo as [H | [H1 H2]];
        [left; exact H | right; split; [symmetry; exact H1 | exact H2]].
    - apply SFleb_finite in Hhi. exact Hhi. }
  destruct Hcases as [He | [He Hm]].
  - apply Qvalue_le_1.
    + (clear - He; lia).
    + apply Z.le_trans with (2 ^ 53)%Z.
      * (clear - Hv; lia).
      * (apply Z.pow_le_mono_r; clear - He; lia).
  - subst e. apply Qvalue_le_1.
    + (intro; discriminate).
    + change (2 ^ (- -52))%Z with 4503599627370496%Z.
      exact Hm.
Qed.

(** [round(p, 2)] of a polarity between -1 and 1 is a signed zero or the
    double nearest to [k / 100] for some [k] from 1 to 100. *)
Lemma py_round_unit_interval (p : float) :
  (- 1 <=? p)%float = true -> (p <=? 1)%float = true ->
  (exists s, Prim2SF (py_round p 2) = S754_zero s) \/
  (exists s k, In k hundredths /\ py_round p 2 = nearest_float s k 100).
Proof.
  intros Hlo Hhi. unfold py_round.
  destruct (Prim2SF p) as [s | s | | s m e] eqn:Hp.
  - left. exists s. exact Hp.
  - exfalso. rewrite leb_spec, Hp in Hlo, Hhi.
    destruct s; [discriminate Hlo | discriminate Hhi].
  - exfalso. rewrite leb_spec, Hp in Hhi. discriminate Hhi.
  - pose proof (unit_interval_value p s m e Hp Hlo Hhi) as Hv.
    destruct (round_half_even_bounds (Qvalue m e * Qpow10 (Z.of_N 2)) 100)
      as [H0 H100].
    + apply Qmult_le_0_compat; [apply Qvalue_nonneg | discriminate].
    + change (Qpow10 (Z.of_N 2)) with (inject_Z 100).
      rewrite <- (Qmult_1_l (inject_Z 100)) at 2.
      apply Qmult_le_compat_r; [exact Hv | discriminate].
    + destruct (round_half_even (Qvalue m e * Qpow10 (Z.of_N 2))) as [| k | k].
      * left. exists s. destruct s; reflexivity.
      * right. exists s, k. split; [|reflexivity].
        unfold hundredths. rewrite <- (Pos2Nat.id k). apply in_map, in_seq. lia.
      * lia.
Qed.

Lemma hundredths_printed :
  forallb (fun k =>
             at_most_two_decimals (float_str (nearest_float true k 100))
             && at_most_two_decimals (float_str (nearest_float false k 100)))
          hundredths = true.
Proof. vm_compute. reflexivity. Qed.

Lemma float_str_zero (x : float) (s : bool) :
  Prim2SF x = S754_zero s ->
  float_str x = if s then lit "-0.0" else lit "0.0".
Proof. intros H. unfold float_str. rewrite H. reflexivity. Qed.

(** The printed polarity of a score between -1 and 1 has one or two
    decimals. *)
Lemma printed_polarity_shape (p : float) :
  (- 1 <=? p)%float = true -> (p <=? 1)%float = true ->
  at_most_two_decimals (float_str (py_round p 2)) = true.
Proof.
  intros Hlo Hhi.
  destruct (py_round_unit_interval p Hlo Hhi) as [[s Hz] | (s & k & Hk & ->)].
  - rewrite (float_str_zero _ _ Hz). destruct s; reflexivity.
  - pose proof hundredths_printed as H.
    rewrite forallb_forall in H. specialize (H k Hk).
    apply andb_true_iff in H as [Ht Hf]. destruct s; assumption.
Qed.

End Rounding.

(** ** Properties of the pipeline *)

Section Properties.

Variable detect : str -> outcome str.
Variable translate_text : str -> str -> str -> outcome dict.
Variable TextBlob : str -> float * float.
Variable requests_post : str -> dict -> dict -> outcome Z.

Abbreviation detect_language := (detect_language detect).
Abbreviation translate_to_english := (translate_to_english translate_text).
Abbreviation analyze_sentiment := (analyze_sentiment TextBlob).
Abbreviation process_comment := (process_comment detect translate_text TextBlob).
Abbreviation post_sentiment_comment := (post_sentiment_comment requests_post).

(** *** Language detection *)

Lemma detect_language_Some (text lang : str) :
  detect_language text = Return (Some lang) <->
  detect text = Return lang /\ str_in lang SUPPORTED_LANGUAGES = true.
Proof.
  unfold detect_language.
  destruct (detect text) as [l | e].
  - destruct (str_in l SUPPORTED_LANGUAGES) eqn:Hin; split.
    + intros [= ->]. auto.
    + intros [[= ->] _]. reflexivity.
    + discriminate.
    + intros [[= ->] H]. congruence.
  - destruct (isinstance e LangDetectException); split;
      try discriminate; intros [? _]; discriminate.
Qed.

(** *** Translation *)

(** The adapter always returns: either the translation or the text. *)
Lemma translate_to_english_total (text source_language : str) :
  exists log translated,
    translate_to_english text source_language = (log, Return translated).
Proof.
  unfold translate_to_english, try_except, bind, lift.
  destruct (translate_text text source_language (lit "en")) as [d | e].
  - unfold getitem. destruct (dict_get d (lit "translatedText")) as [v |];
      eexists _, _; reflexivity.
  - eexists _, _; reflexivity.
Qed.

Lemma translate_to_english_fallback (text source_language : str) (e : exn) :
  translate_text text source_language (lit "en") = Raise e ->
  translate_to_english text source_language =
    ([Print (lit "[v0] Translation error: " ++ exn_str e)], Return text).
Proof.
  intros H. unfold translate_to_english, try_except, bind, lift.
  rewrite H. reflexivity.
Qed.

(** *** The orchestrator *)

(** What [process_comment] does once a supported language is detected. *)
Lemma process_comment_supported (text lang translated : str) (log : list event) :
  detect text = Return lang ->
  str_in lang SUPPORTED_LANGUAGES = true ->
  translate_to_english text lang = (log, Return translated) ->
  process_comment text =
    ([Print (lit "[v0] Detected language: " ++ lang)] ++ log
       ++ [Print (lit "[v0] Translated text: " ++ translated)],
     Return (Some {| original_text := text;
                     detected_language := lang;
                     translated_text := translated;
                     sentiment_analysis := analyze_sentiment translated |})).
Proof.
  intros Hd Hin Ht.
  assert (Hdl : detect_language text = Return (Some lang))
    by (apply detect_language_Some; auto).
  unfold process_comment, bind, lift, print, ret.
  rewrite Hdl, (supported_truthy _ Hin). simpl negb. cbv iota.
  rewrite Ht. reflexivity.
Qed.

Lemma process_comment_unsupported (text : str) :
  detect_language text = Return None ->
  process_comment text = ([], Return None).
Proof.
  intros H. unfold process_comment, bind, lift.
  rewrite H. reflexivity.
Qed.

Lemma process_comment_raises (text : str) (e : exn) :
  detect_language text = Raise e ->
  process_comment text = ([], Raise e).
Proof.
  intros H. unfold process_comment, bind, lift.
  rewrite H. reflexivity.
Qed.

(** C1.  [process_comment] returns [None] exactly when [detect_language]
    does; and for a text whose detected language is supported it returns
    the record made of the input text, the detected language, the
    translator's output for that text and language, and the sentiment
    analysis of the translated text. *)
Theorem process_comment_spec (text : str) :
  (snd (process_comment text) = Return None <->
   detect_language text = Return None) /\
  (forall lang,
      detect text = Return lang ->
      str_in lang SUPPORTED_LANGUAGES = true ->
      exists translated,
        snd (translate_to_english text lang) = Return translated /\
        snd (process_comment text) =
          Return (Some {| original_text := text;
                          detected_language := lang;
                          translated_text := translated;
                          sentiment_analysis := analyze_sentiment translated |})).
Proof.
  split.
  - split.
    + destruct (detect_language text) as [[lang |] | e] eqn:Hdl.
      * apply detect_language_Some in Hdl as [Hd Hin].
        destruct (translate_to_english_total text lang) as (log & tr & Ht).
        rewrite (process_comment_supported _ _ _ _ Hd Hin Ht).
        discriminate.
      * reflexivity.
      * rewrite (process_comment_raises _ _ Hdl). discriminate.
    + intros H. rewrite (process_comment_unsupported _ H). reflexivity.
  - intros lang Hd Hin.
    destruct (translate_to_english_total text lang) as (log & tr & Ht).
    exists tr. rewrite Ht, (process_comment_supported _ _ _ _ Hd Hin Ht).
    split; reflexivity.
Qed.

(** C3.  When the translation capability raises, [translate_to_english]
    returns the input text (and likewise when its answer has no
    [translatedText]); [process_comment] then still returns a record,
    whose translated text is the original text. *)
Theorem translation_failure_falls_back (text : str) :
  (forall source_language e,
      translate_text text source_language (lit "en") = Raise e ->
      snd (translate_to_english text source_language) = Return text) /\
  (forall source_language d,
      translate_text text source_language (lit "en") = Return d ->
      dict_get d (lit "translatedText") = None ->
      snd (translate_to_english text source_language) = Return text) /\
  (forall lang e,
      detect text = Return lang ->
      str_in lang SUPPORTED_LANGUAGES = true ->
      translate_text text lang (lit "en") = Raise e ->
      snd (process_comment text) =
        Return (Some {| original_text := text;
                        detected_language := lang;
                        translated_text := text;
                        sentiment_analysis := analyze_sentiment text |})).
Proof.
  split; [|split].
  - intros src e H. rewrite (translate_to_english_fallback _ _ _ H).
    reflexivity.
  - intros src d H Hk.
    unfold translate_to_english, try_except, bind, lift, getitem.
    rewrite H, Hk. reflexivity.
  - intros lang e Hd Hin H.
    rewrite (process_comment_supported _ _ _ _ Hd Hin
               (translate_to_english_fallback _ _ _ H)).
    reflexivity.
Qed.

(** C4, as the code has it.  [detect_language] returns a language code
    only when [detect] returned that code and it is ["de"] or ["es"]; any
    other detected language gives [None]; a [LangDetectException] gives
    [None]; every other exception of [detect] leaves [detect_language]
    unchanged, the handler naming [LangDetectException] alone; so
    [detect_language] does not raise when [LangDetectException] is the
    only exception [detect] raises. *)
Theorem detect_language_spec (text : str) :
  (forall lang,
      detect_language text = Return (Some lang) ->
      detect text = Return lang /\ (lang = lit "de" \/ lang = lit "es")) /\
  (forall lang,
      detect text = Return lang ->
      (lang = lit "de" \/ lang = lit "es") ->
      detect_language text = Return (Some lang)) /\
  (forall lang,
      detect text = Return lang ->
      ~ (lang = lit "de" \/ lang = lit "es") ->
      detect_language text = Return None) /\
  (forall e,
      detect text = Raise e ->
      exn_cls e = LangDetectException ->
      detect_language text = Return None) /\
  (forall e,
      detect text = Raise e ->
      exn_cls e <> LangDetectException ->
      detect_language text = Raise e) /\
  ((forall e, detect text = Raise e -> exn_cls e = LangDetectException) ->
   exists result, detect_language text = Return result).
Proof.
  split; [|split; [|split; [|split; [|split]]]].
  - intros lang H. apply detect_language_Some in H as [Hd Hin].
    split; [exact Hd | apply supported_iff, Hin].
  - intros lang Hd Hl. apply detect_language_Some.
    split; [exact Hd | apply supported_iff; exact Hl].
  - intros lang Hd Hl. unfold detect_language. rewrite Hd.
    destruct (str_in lang SUPPORTED_LANGUAGES) eqn:Hin; [|reflexivity].
    apply supported_iff in Hin. contradiction.
  - intros e Hd He. unfold detect_language. rewrite Hd.
    unfold isinstance. rewrite He. reflexivity.
  - intros e Hd He. unfold detect_language. rewrite Hd.
    unfold isinstance.
    destruct (exn_cls e); try reflexivity. contradiction He. reflexivity.
  - intros Hc. unfold detect_language.
    destruct (detect text) as [lang | e] eqn:Hd; [eauto|].
    unfold isinstance. rewrite (Hc e eq_refl). simpl. eauto.
Qed.

(** *** The report *)

Lemma fold_rows (results : list AnalysisRecord) (body : str) :
  fold_left (fun comment_body result => comment_body ++ render_row result)
            results body
  = body ++ List.concat (map render_row results).
Proof.
  revert body. induction results as [|r results IH]; intros body; simpl.
  - rewrite app_nil_r. reflexivity.
  - rewrite IH, <- app_assoc. reflexivity.
Qed.

Lemma build_comment_body_rows (results : list AnalysisRecord) :
  build_comment_body results = report_header ++ List.concat (map render_row results).
Proof. apply fold_rows. Qed.

(** A non-empty report is posted, whatever its records are. *)
Lemma post_sentiment_comment_posts
      (self : SentimentAnalyzer) (repo : str) (pr_number : Z)
      (results : list AnalysisRecord) :
  results <> [] ->
  exists rest,
    fst (post_sentiment_comment self repo pr_number results) =
      HttpPost (lit "https://api.github.com/repos/" ++ repo ++ lit "/issues/"
                  ++ str_of_int pr_number ++ lit "/comments")
               (headers self)
               [(lit "body", build_comment_body results)]
        :: rest.
Proof.
  intros Hne. destruct results as [|r results]; [congruence|].
  unfold post_sentiment_comment, bind.
  destruct (requests_post _ _ _) as [status | e].
  - destruct (status =? 201)%Z; eexists; reflexivity.
  - eexists; reflexivity.
Qed.

(** *** Truncation of the original text *)

Lemma display_original_long (r : AnalysisRecord) :
  (len (original_text r) > 50)%Z ->
  display_original r = firstn 50 (original_text r) ++ lit "...".
Proof.
  intros H. unfold display_original, slice_to.
  destruct (len (original_text r) >? 50)%Z eqn:E; [reflexivity|].
  rewrite Z.gtb_ltb, Z.ltb_ge in E. lia.
Qed.

Lemma display_original_short (r : AnalysisRecord) :
  (len (original_text r) <= 50)%Z ->
  display_original r = original_text r.
Proof.
  intros H. unfold display_original.
  destruct (len (original_text r) >? 50)%Z eqn:E; [|reflexivity].
  rewrite Z.gtb_ltb, Z.ltb_lt in E. lia.
Qed.

(** A record returned by [process_comment] carries the comment text. *)
Lemma process_comment_keeps_text (text : str) (rec : AnalysisRecord) :
  snd (process_comment text) = Return (Some rec) ->
  original_text rec = text /\
  sentiment_analysis rec = analyze_sentiment (translated_text rec).
Proof.
  destruct (detect_language text) as [[lang |] | e] eqn:Hdl.
  - apply detect_language_Some in Hdl as [Hd Hin].
    destruct (translate_to_english_total text lang) as (log & tr & Ht).
    rewrite (process_comment_supported _ _ _ _ Hd Hin Ht).
    intros [= <-]. split; reflexivity.
  - rewrite (process_comment_unsupported _ Hdl). discriminate.
  - rewrite (process_comment_raises _ _ Hdl). discriminate.
Qed.

(** C8.  The first cell of a row is the first 50 characters of the
    original text followed by ["..."] exactly when the text is longer than
    50 characters, and the text itself otherwise; the record returned by
    [process_comment] keeps the whole text. *)
Theorem truncation_is_display_only (r : AnalysisRecord) :
  ((len (original_text r) > 50)%Z ->
   display_original r = firstn 50 (original_text r) ++ lit "..." /\
   len (firstn 50 (original_text r)) = 50%Z) /\
  ((len (original_text r) <= 50)%Z ->
   display_original r = original_text r) /\
  (display_original r = firstn 50 (original_text r) ++ lit "..." <->
   (len (original_text r) > 50)%Z) /\
  (exists cells,
      render_row r = lit "| " ++ display_original r ++ lit " | " ++ cells) /\
  (forall text,
      snd (process_comment text) = Return (Some r) -> original_text r = text).
Proof.
  split; [|split; [|split; [|split]]].
  - intros H. split; [apply display_original_long; exact H|].
    unfold len in *. rewrite length_firstn. lia.
  - apply display_original_short.
  - split; [|apply display_original_long].
    intros Heq.
    destruct (Z_le_gt_dec (len (original_text r)) 50) as [Hle | Hgt];
      [|exact Hgt].
    rewrite (display_original_short _ Hle) in Heq.
    apply (f_equal (@List.length codepoint)) in Heq.
    rewrite length_app, length_firstn in Heq. unfold len in Hle.
    change (List.length (lit "...")) with 3%nat in Heq. lia.
  - eexists. unfold render_row. reflexivity.
  - intros text H. apply (process_comment_keeps_text _ _ H).
Qed.

(** *** The language name *)

(** C10.  Every language code other than ["de"] is rendered as
    ["Spanish"], so the name is never blank, and a report with such a
    record is built and posted like any other. *)
Theorem language_name_defaults_to_spanish (r : AnalysisRecord) :
  (detected_language r <> lit "de" -> lang_name r = lit "Spanish") /\
  (detected_language r = lit "de" -> lang_name r = lit "German") /\
  lang_name r <> [] /\
  (exists cells,
      render_row r = lit "| " ++ display_original r ++ lit " | "
                       ++ lang_name r ++ cells) /\
  (forall self repo pr_number before after,
      exists url rest,
        fst (post_sentiment_comment self repo pr_number (before ++ r :: after)) =
          HttpPost url (headers self)
                   [(lit "body",
                     report_header
                       ++ List.concat (map render_row before)
                       ++ render_row r
                       ++ List.concat (map render_row after))]
            :: rest).
Proof.
  split; [|split; [|split; [|split]]].
  - intros H. unfold lang_name. apply str_eqb_neq in H. rewrite H. reflexivity.
  - intros H. unfold lang_name. rewrite H. reflexivity.
  - unfold lang_name. destruct (str_eqb _ _); discriminate.
  - eexists. unfold render_row. reflexivity.
  - intros self repo pr_number before after.
    destruct (post_sentiment_comment_posts self repo pr_number
                (before ++ r :: after)) as [rest Hrest].
    + destruct before; discriminate.
    + rewrite build_comment_body_rows, map_app, concat_app in Hrest.
      simpl in Hrest. eauto.
Qed.

(** *** Sentiment classification *)

Lemma analyze_sentiment_class (text : str) :
  sentiment (analyze_sentiment text) = classify_polarity (fst (TextBlob text)).
Proof. reflexivity. Qed.

(** C2.  The class is decided by the polarity that the scorer reports,
    before any rounding: above 0.1 positive, below -0.1 negative, neutral
    otherwise.  So 0.10 is neutral, 0.11 positive and -0.11 negative; and
    0.104 is positive while 0.096 is neutral, although the polarity stored
    for display is 0.10 for both. *)
Theorem classification_uses_raw_polarity (text : str) :
  let p := fst (TextBlob text) in
  let result := analyze_sentiment text in
  ((0.1 <? p)%float = true -> sentiment result = Positive) /\
  ((p <? - 0.1)%float = true -> sentiment result = Negative) /\
  ((0.1 <? p)%float = false -> (p <? - 0.1)%float = false ->
   sentiment result = Neutral) /\
  (p = 0.10%float -> sentiment result = Neutral) /\
  (p = 0.11%float -> sentiment result = Positive) /\
  (p = (- 0.11)%float -> sentiment result = Negative) /\
  (p = 0.104%float ->
   sentiment result = Positive /\ polarity result = 0.10%float) /\
  (p = 0.096%float ->
   sentiment result = Neutral /\ polarity result = 0.10%float).
Proof.
  intros p result. unfold result, p.
  rewrite analyze_sentiment_class. unfold analyze_sentiment. simpl polarity.
  generalize (fst (TextBlob text)); clear; intros p.
  split; [|split; [|split]].
  - intros H. unfold classify_polarity. rewrite H. reflexivity.
  - intros H. unfold classify_polarity.
    rewrite (below_is_not_above _ H), H. reflexivity.
  - intros H1 H2. unfold classify_polarity. rewrite H1, H2. reflexivity.
  - split; [|split; [|split; [|split]]]; intros ->;
      try split; vm_compute; reflexivity.
Qed.

(** *** Rounding *)

(** C6, as the code has it.  [analyze_sentiment] classifies the unrounded
    polarity and returns the polarity and the subjectivity rounded to 2
    decimals; these rounded values are what the record of
    [process_comment] holds, and the report prints the stored polarity
    without rounding it again. *)
Theorem rounding_happens_in_analyze_sentiment (text : str) :
  (sentiment (analyze_sentiment text) = classify_polarity (fst (TextBlob text)) /\
   polarity (analyze_sentiment text) = py_round (fst (TextBlob text)) 2 /\
   subjectivity (analyze_sentiment text) = py_round (snd (TextBlob text)) 2) /\
  (forall rec,
      snd (process_comment text) = Return (Some rec) ->
      polarity (sentiment_analysis rec)
        = py_round (fst (TextBlob (translated_text rec))) 2 /\
      subjectivity (sentiment_analysis rec)
        = py_round (snd (TextBlob (translated_text rec))) 2) /\
  (forall r,
      exists cells,
        render_row r
          = cells ++ float_str (polarity (sentiment_analysis r)) ++ lit " |" ++ nl).
Proof.
  split; [repeat split|split].
  - intros rec H. apply process_comment_keeps_text in H as [_ ->].
    split; reflexivity.
  - intros r. unfold render_row.
    exists (lit "| " ++ display_original r ++ lit " | " ++ lang_name r
              ++ lit " | "
              ++ upper (sentiment_name (sentiment (sentiment_analysis r)))
              ++ lit " | ").
    rewrite <- !app_assoc. reflexivity.
Qed.

End Properties.

(** C9.  Two runs whose scorers report the same polarity (the same float,
    or floats that compare equal) get the same class, whatever the texts
    and the subjectivities are. *)
Theorem subjectivity_never_influences_class
        (TextBlob1 TextBlob2 : str -> float * float) (text1 text2 : str) :
  fst (TextBlob1 text1) = fst (TextBlob2 text2) \/
  (fst (TextBlob1 text1) =? fst (TextBlob2 text2))%float = true ->
  sentiment (analyze_sentiment TextBlob1 text1)
    = sentiment (analyze_sentiment TextBlob2 text2).
Proof.
  unfold analyze_sentiment. simpl sentiment.
  intros [H | H]; [rewrite H; reflexivity | apply classify_polarity_eqb, H].
Qed.

(** ** The rendering of a row *)

Lemma render_row_cells (r : AnalysisRecord) :
  render_row r
  = lit "| " ++ display_original r ++ lit " | " ++ lang_name r ++ lit " | "
      ++ upper (sentiment_name (sentiment (sentiment_analysis r)))
      ++ lit " | " ++ float_str (polarity (sentiment_analysis r))
      ++ lit " |" ++ nl.
Proof. reflexivity. Qed.

(** C7, as the code has it.  A row shows the truncated text, ["German"]
    for ["de"] and ["Spanish"] for ["es"], the class in upper case, and
    the stored polarity as [str] prints a float: for a score between -1
    and 1 rounded to 2 decimals that is one or two decimals with no
    padding zero, so 0.8 is shown as ["0.8"], as in the row
    [| Das ist großartig! | German | POSITIVE | 0.8 |]. *)
Theorem report_row_cells (r : AnalysisRecord) :
  render_row r
  = lit "| " ++ display_original r ++ lit " | " ++ lang_name r ++ lit " | "
      ++ upper (sentiment_name (sentiment (sentiment_analysis r)))
      ++ lit " | " ++ float_str (polarity (sentiment_analysis r))
      ++ lit " |" ++ nl /\
  (detected_language r = lit "de" -> lang_name r = lit "German") /\
  (detected_language r = lit "es" -> lang_name r = lit "Spanish") /\
  upper (sentiment_name (sentiment (sentiment_analysis r)))
  = match sentiment (sentiment_analysis r) with
    | Positive => lit "POSITIVE"
    | Negative => lit "NEGATIVE"
    | Neutral => lit "NEUTRAL"
    end /\
  (forall p,
      polarity (sentiment_analysis r) = py_round p 2 ->
      (- 1 <=? p)%float = true -> (p <=? 1)%float = true ->
      at_most_two_decimals (float_str (polarity (sentiment_analysis r))) = true) /\
  float_str (py_round 0.8 2) = lit "0.8" /\
  render_row Stub.scenario_record = Stub.scenario_row.
Proof.
  split; [apply render_row_cells|].
  split; [intros H; unfold lang_name; rewrite H; reflexivity|].
  split; [intros H; unfold lang_name; rewrite H; reflexivity|].
  split; [destruct (sentiment (sentiment_analysis r)); reflexivity|].
  split; [intros p -> Hlo Hhi; apply printed_polarity_shape; assumption|].
  split; vm_compute; reflexivity.
Qed.

(** ** The lines of the report *)

















(** ** The scenario, run *)

(** The German comment is detected, translated, scored and reported. *)
Lemma scenario_record_produced :
  snd (process_comment Stub.detect Stub.translate_text Stub.TextBlob
                       Stub.das_ist_grossartig)
  = Return (Some Stub.scenario_record).
Proof. vm_compute. reflexivity. Qed.

(** The English comment is skipped. *)
Lemma scenario_english_skipped :
  process_comment Stub.detect Stub.translate_text Stub.TextBlob Stub.hello_there
  = ([], Return None).
Proof. vm_compute. reflexivity. Qed.

(** Against C6 as stated: with raw scores [(0.104, 0.555)] the record
    holds 0.1 and 0.56, not the raw values. *)
Lemma record_holds_rounded_scores :
  snd (process_comment Stub.detect Stub.translate_text
                       (Stub.scorer 0.104 0.555) Stub.das_ist_grossartig)
  = Return (Some {| original_text := Stub.das_ist_grossartig;
                    detected_language := lit "de";
                    translated_text := lit "That's great!";
                    sentiment_analysis :=
                      {| sentiment := Positive;
                         polarity := 0.1;
                         subjectivity := 0.56 |} |}) /\
  0.1%float <> 0.104%float /\
  0.56%float <> 0.555%float.
Proof.
  split; [vm_compute; reflexivity|].
  split; float_neq.
Qed.

(** Against C7 as stated: the polarity 0.8 is printed ["0.8"], and the
    18 characters of the comment get no ellipsis, so the row is not the
    padded one. *)
Lemma polarity_is_printed_without_padding :
  snd (process_comment Stub.detect Stub.translate_text Stub.TextBlob
                       Stub.das_ist_grossartig)
  = Return (Some Stub.scenario_record) /\
  render_row Stub.scenario_record = Stub.scenario_row /\
  render_row Stub.scenario_record <> Stub.padded_row /\
  float_str (polarity (sentiment_analysis Stub.scenario_record)) = lit "0.8" /\
  float_str (polarity (sentiment_analysis Stub.scenario_record)) <> lit "0.80".
Proof.
  split; [exact scenario_record_produced|].
  split; [vm_compute; reflexivity|].
  split; [vm_compute; discriminate|].
  split; [vm_compute; reflexivity | vm_compute; discriminate].
Qed.

(** ** Instances *)

Lemma process_comment_spec_witness :
  exists translated,
    snd (translate_to_english Stub.translate_text Stub.das_ist_grossartig
                              (lit "de")) = Return translated /\
    snd (process_comment Stub.detect Stub.translate_text Stub.TextBlob
                         Stub.das_ist_grossartig)
    = Return (Some {| original_text := Stub.das_ist_grossartig;
                      detected_language := lit "de";
                      translated_text := translated;
                      sentiment_analysis :=
                        analyze_sentiment Stub.TextBlob translated |}).
Proof.
  apply (proj2 (process_comment_spec Stub.detect Stub.translate_text
                  Stub.TextBlob Stub.das_ist_grossartig) (lit "de"));
    reflexivity.
Defined.

Lemma classification_uses_raw_polarity_witness :
  sentiment (analyze_sentiment (Stub.scorer 0.104 0.5) Stub.hello_there)
  = Positive /\
  polarity (analyze_sentiment (Stub.scorer 0.104 0.5) Stub.hello_there)
  = 0.10%float.
Proof.
  destruct (classification_uses_raw_polarity (Stub.scorer 0.104 0.5)
              Stub.hello_there) as (_ & _ & _ & _ & _ & _ & H & _).
  apply H. reflexivity.
Defined.

Lemma translation_failure_falls_back_witness :
  snd (process_comment Stub.detect Stub.translate_fails Stub.TextBlob
                       Stub.das_ist_grossartig)
  = Return (Some {| original_text := Stub.das_ist_grossartig;
                    detected_language := lit "de";
                    translated_text := Stub.das_ist_grossartig;
                    sentiment_analysis :=
                      analyze_sentiment Stub.TextBlob Stub.das_ist_grossartig |}).
Proof.
  apply (proj2 (proj2 (translation_failure_falls_back
                         Stub.detect Stub.translate_fails Stub.TextBlob
                         Stub.das_ist_grossartig))
           (lit "de") Stub.unavailable);
    reflexivity.
Defined.

Lemma detect_language_spec_witness :
  detect_language Stub.detect [] = Return None /\
  exists result, detect_language Stub.detect [] = Return result.
Proof.
  destruct (detect_language_spec Stub.detect [])
    as (_ & _ & _ & Hfail & _ & Hnever).
  split.
  - apply (Hfail Stub.no_features); reflexivity.
  - apply Hnever. intros e H. injection H as <-. reflexivity.
Defined.


(** A detection capability failing with another exception than
    [LangDetectException]: [detect_language] raises it. *)
Lemma detect_language_propagates_other_errors :
  Edge.detect_fails Stub.hello_there = Raise Edge.runtime_error /\
  detect_language Edge.detect_fails Stub.hello_there
  = Raise Edge.runtime_error /\
  ~ (exists result,
        detect_language Edge.detect_fails Stub.hello_there = Return result).
Proof.
  split; [reflexivity|]. split; [reflexivity|].
  intros [result H]. discriminate H.
Qed.


Lemma truncation_is_display_only_witness :
  display_original Stub.long_record
  = firstn 50 Stub.long_comment ++ lit "..." /\
  len (firstn 50 Stub.long_comment) = 50%Z.
Proof.
  apply (proj1 (truncation_is_display_only
                  Stub.detect Stub.translate_text Stub.TextBlob
                  Stub.long_record)).
  reflexivity.
Defined.

Lemma subjectivity_never_influences_class_witness :
  sentiment (analyze_sentiment (Stub.scorer 0.5 0.1) Stub.hello_there)
  = sentiment (analyze_sentiment (Stub.scorer 0.5 0.9) Stub.das_ist_grossartig).
Proof.
  apply subjectivity_never_influences_class. left. reflexivity.
Defined.

Lemma language_name_defaults_to_spanish_witness :
  lang_name Stub.french_record = lit "Spanish".
Proof.
  apply (proj1 (language_name_defaults_to_spanish Stub.requests_post
                  Stub.french_record)).
  discriminate.
Defined.

Lemma rounding_happens_in_analyze_sentiment_witness :
  polarity (sentiment_analysis Stub.scenario_record)
  = py_round (fst (Stub.TextBlob (translated_text Stub.scenario_record))) 2 /\
  subjectivity (sentiment_analysis Stub.scenario_record)
  = py_round (snd (Stub.TextBlob (translated_text Stub.scenario_record))) 2.
Proof.
  apply (proj1 (proj2 (rounding_happens_in_analyze_sentiment
                         Stub.detect Stub.translate_text Stub.TextBlob
                         Stub.das_ist_grossartig))).
  vm_compute. reflexivity.
Defined.

Lemma report_row_cells_witness :
  at_most_two_decimals
    (float_str (polarity (sentiment_analysis Stub.scenario_record))) = true.
Proof.
  destruct (report_row_cells Stub.scenario_record) as (_ & _ & _ & _ & H & _).
  apply (H 0.8%float); vm_compute; reflexivity.
Defined.

(** * Further properties *)

(** ** Computations: traces and outcomes *)

Lemma bind_Return {A B : Type} (t : list event) (a : A) (f : A -> M B) :
  bind (t, Return a) f = (t ++ fst (f a), snd (f a)).
Proof. unfold bind. destruct (f a); reflexivity. Qed.

Lemma bind_Raise {A B : Type} (t : list event) (e : exn) (f : A -> M B) :
  bind (t, Raise e) f = (t, Raise e).
Proof. reflexivity. Qed.

Lemma posts_app (t t' : list event) : posts (t ++ t') = posts t ++ posts t'.
Proof. apply filter_app. Qed.

(** A computation that posts nothing, followed by one that posts nothing,
    posts nothing. *)
Lemma bind_posts_nothing {A B : Type} (m : M A) (f : A -> M B) :
  posts (fst m) = [] ->
  (forall a, posts (fst (f a)) = []) ->
  posts (fst (bind m f)) = [].
Proof.
  intros Hm Hf. destruct m as [t [a | e]].
  - rewrite bind_Return. simpl fst in *. rewrite posts_app, Hm, Hf. reflexivity.
  - exact Hm.
Qed.

Lemma try_except_posts_nothing {A : Type} (body : M A) (cls : exn_class)
      (handler : exn -> M A) :
  posts (fst body) = [] ->
  (forall e, posts (fst (handler e)) = []) ->
  posts (fst (try_except body cls handler)) = [].
Proof.
  intros Hb Hh. destruct body as [t [a | e]]; simpl; [exact Hb|].
  destruct (isinstance e cls); [|exact Hb].
  specialize (Hh e). destruct (handler e) as [t' r]. simpl in *.
  rewrite posts_app, Hb, Hh. reflexivity.
Qed.

Section MoreProperties.

Variable detect : str -> outcome str.
Variable translate_text : str -> str -> str -> outcome dict.
Variable TextBlob : str -> float * float.
Variable requests_post : str -> dict -> dict -> outcome Z.
Variable requests_get : str -> dict -> outcome Response.
Variable getenv : str -> option str.
Variable load_event : str -> outcome GithubEvent.

Abbreviation detect_language := (detect_language detect).
Abbreviation translate_to_english := (translate_to_english translate_text).
Abbreviation analyze_sentiment := (analyze_sentiment TextBlob).
Abbreviation process_comment := (process_comment detect translate_text TextBlob).
Abbreviation post_sentiment_comment := (post_sentiment_comment requests_post).
Abbreviation get_pr_comments := (get_pr_comments requests_get).
Abbreviation loop := (main_loop detect translate_text TextBlob).
Abbreviation main :=
  (main detect translate_text TextBlob requests_post requests_get getenv
        load_event).

(** *** The translator adapter *)

(** X1.  [translate_to_english] by the answer of [translate_text].  An
    answer with a [translatedText] is returned and nothing is printed.  An
    answer without that key, and an exception of [translate_text] derived
    from [Exception], which is what the handler catches, both give back
    the input text after exactly one printed line; the line ends with the
    quoted key in the first case and with the text of the exception in the
    second. *)
Theorem translate_to_english_outcomes (text source_language : str) :
  (forall d v,
      translate_text text source_language (lit "en") = Return d ->
      dict_get d (lit "translatedText") = Some v ->
      translate_to_english text source_language = ([], Return v)) /\
  (forall d,
      translate_text text source_language (lit "en") = Return d ->
      dict_get d (lit "translatedText") = None ->
      translate_to_english text source_language
      = ([Print (lit "[v0] Translation error: 'translatedText'")],
         Return text)) /\
  (forall e,
      translate_text text source_language (lit "en") = Raise e ->
      isinstance e Exception = true ->
      translate_to_english text source_language
      = ([Print (lit "[v0] Translation error: " ++ exn_str e)], Return text)).
Proof.
  unfold translate_to_english, try_except, bind, lift, getitem.
  split; [|split].
  - intros d v -> ->. reflexivity.
  - intros d -> ->. reflexivity.
  - intros e -> He. cbn [snd fst]. rewrite He. reflexivity.
Qed.

(** *** The orchestrator *)

(** X2.  An exception of [detect] in [process_comment].  When it is not a
    [LangDetectException], [process_comment] raises that same exception
    and has printed nothing; when it is one, [process_comment] returns
    [None] and has printed nothing.  In neither case is the translator or
    the scorer reached. *)
Theorem process_comment_detection_errors (text : str) (e : exn) :
  detect text = Raise e ->
  (isinstance e LangDetectException = false ->
   process_comment text = ([], Raise e)) /\
  (isinstance e LangDetectException = true ->
   process_comment text = ([], Return None)).
Proof.
  intros Hd. split; intros Hi.
  - apply process_comment_raises.
    unfold detect_language. rewrite Hd, Hi. reflexivity.
  - apply process_comment_unsupported.
    unfold detect_language. rewrite Hd, Hi. reflexivity.
Qed.

(** The adapter prints at most one line and posts nothing. *)
Lemma translate_to_english_trace (text source_language : str) :
  exists log translated,
    translate_to_english text source_language = (log, Return translated) /\
    (List.length log <= 1)%nat /\ posts log = [].
Proof.
  unfold translate_to_english, try_except, bind, lift, getitem.
  destruct (translate_text text source_language (lit "en")) as [d | e].
  - destruct (dict_get d (lit "translatedText")) as [v |];
      eexists _, _; (split; [reflexivity | split; [simpl; lia | reflexivity]]).
  - eexists _, _; (split; [reflexivity | split; [simpl; lia | reflexivity]]).
Qed.

Lemma process_comment_posts_nothing (text : str) :
  posts (fst (process_comment text)) = [].
Proof.
  unfold process_comment.
  apply bind_posts_nothing; [reflexivity | intros lang].
  destruct (negb (truthy lang)); [reflexivity|].
  destruct lang as [lang |]; [|reflexivity].
  apply bind_posts_nothing; [reflexivity | intros _].
  apply bind_posts_nothing.
  - destruct (translate_to_english_trace text lang) as (log & v & -> & _ & H).
    exact H.
  - intros translated.
    apply bind_posts_nothing; [reflexivity | intros _; reflexivity].
Qed.

(** When [detect] raises nothing but [LangDetectException] on a text,
    [process_comment] returns. *)
Lemma process_comment_returns (text : str) :
  (forall e, detect text = Raise e -> isinstance e LangDetectException = true) ->
  exists trace result, process_comment text = (trace, Return result).
Proof.
  intros Hd.
  destruct (detect_language text) as [[lang |] | e] eqn:Hdl.
  - apply detect_language_Some in Hdl as [Hdt Hin].
    destruct (translate_to_english_total translate_text text lang)
      as (log & tr & Ht).
    rewrite (process_comment_supported _ _ _ _ _ _ _ Hdt Hin Ht). eauto.
  - rewrite (process_comment_unsupported _ _ _ _ Hdl). eauto.
  - exfalso. unfold detect_language in Hdl.
    destruct (detect text) as [l | e0]; [discriminate|].
    rewrite (Hd e0 eq_refl) in Hdl. discriminate.
Qed.

(** X3.  [process_comment] only prints, at most three lines: it never
    posts. *)
Theorem process_comment_only_prints (text : str) :
  posts (fst (process_comment text)) = [] /\
  (List.length (fst (process_comment text)) <= 3)%nat.
Proof.
  split; [apply process_comment_posts_nothing|].
  destruct (detect_language text) as [[lang |] | e] eqn:Hdl.
  - apply detect_language_Some in Hdl as [Hd Hin].
    destruct (translate_to_english_trace text lang) as (log & v & Ht & Hlen & _).
    rewrite (process_comment_supported _ _ _ _ _ _ _ Hd Hin Ht).
    cbn [fst]. rewrite !length_app. simpl. lia.
  - rewrite (process_comment_unsupported _ _ _ _ Hdl). simpl. lia.
  - rewrite (process_comment_raises _ _ _ _ _ Hdl). simpl. lia.
Qed.

(** X4.  A record that [process_comment] returns has the language ["de"],
    named German in the report, or ["es"], named Spanish: the fallback name
    is never given to another language. *)
Theorem pipeline_language_is_named (text : str) (r : AnalysisRecord) :
  snd (process_comment text) = Return (Some r) ->
  (detected_language r = lit "de" /\ lang_name r = lit "German") \/
  (detected_language r = lit "es" /\ lang_name r = lit "Spanish").
Proof.
  destruct (detect_language text) as [[lang |] | e] eqn:Hdl.
  - apply detect_language_Some in Hdl as [Hd Hin].
    destruct (translate_to_english_total translate_text text lang)
      as (log & tr & Ht).
    rewrite (process_comment_supported _ _ _ _ _ _ _ Hd Hin Ht).
    intros [= <-]. apply supported_iff in Hin as [-> | ->]; [left | right];
      split; reflexivity.
  - rewrite (process_comment_unsupported _ _ _ _ Hdl). discriminate.
  - rewrite (process_comment_raises _ _ _ _ _ Hdl). discriminate.
Qed.

(** *** The report *)

(** X5.  The first cell of a row has at most 53 characters and starts
    like the original text; a text of more than 50 characters always gives
    53, so one of 51 or 52 characters is displayed longer than it is. *)
Theorem display_original_bounds (r : AnalysisRecord) :
  (len (display_original r) <= 53)%Z /\
  firstn 50 (display_original r) = firstn 50 (original_text r) /\
  ((len (original_text r) > 50)%Z -> len (display_original r) = 53%Z).
Proof.
  assert (Hlong : (len (original_text r) > 50)%Z ->
                  len (display_original r) = 53%Z /\
                  firstn 50 (display_original r) = firstn 50 (original_text r)).
  { intros H. rewrite (display_original_long r H). unfold len in *.
    split.
    - rewrite length_app, length_firstn.
      change (List.length (lit "...")) with 3%nat. lia.
    - rewrite firstn_app, length_firstn.
      replace (50 - Nat.min 50 (List.length (original_text r)))%nat with 0%nat
        by lia.
      rewrite firstn_firstn, firstn_O, app_nil_r. reflexivity. }
  destruct (Z_le_gt_dec (len (original_text r)) 50) as [Hle | Hgt].
  - rewrite (display_original_short r Hle). repeat split; [lia | lia].
  - destruct (Hlong Hgt) as [H53 Hpre]. rewrite H53.
    repeat split; [lia | exact Hpre].
Qed.

(** X6.  The report of two batches of records is the report of the first
    followed by the rows of the second; with no record it is the header. *)
Theorem build_comment_body_app (results more : list AnalysisRecord) :
  build_comment_body (results ++ more)
  = build_comment_body results ++ List.concat (map render_row more) /\
  build_comment_body [] = report_header.
Proof.
  split; [|reflexivity].
  rewrite !build_comment_body_rows, map_app, concat_app, app_assoc.
  reflexivity.
Qed.

(** With at least one record the trace has exactly one post. *)
Lemma post_sentiment_comment_posts_once
      (self : SentimentAnalyzer) (repo : str) (pr_number : Z)
      (r : AnalysisRecord) (results : list AnalysisRecord) :
  posts (fst (post_sentiment_comment self repo pr_number (r :: results)))
  = [HttpPost (lit "https://api.github.com/repos/" ++ repo ++ lit "/issues/"
                 ++ str_of_int pr_number ++ lit "/comments")
              (headers self)
              [(lit "body", build_comment_body (r :: results))]].
Proof.
  unfold post_sentiment_comment, bind.
  destruct (requests_post _ _ _) as [code | e]; [|reflexivity].
  destruct (code =? 201)%Z; reflexivity.
Qed.

(** X7.  With at least one record [post_sentiment_comment] posts exactly
    once.  It then prints one line: success for the status 201, the status
    code for any other status, which is not an error for the caller.  When
    [requests.post] raises, the exception is raised after the post and
    nothing is printed. *)
Theorem post_sentiment_comment_outcomes
        (self : SentimentAnalyzer) (repo : str) (pr_number : Z)
        (r : AnalysisRecord) (results : list AnalysisRecord) :
  let url := lit "https://api.github.com/repos/" ++ repo ++ lit "/issues/"
               ++ str_of_int pr_number ++ lit "/comments" in
  let payload := [(lit "body", build_comment_body (r :: results))] in
  let post := HttpPost url (headers self) payload in
  (requests_post url (headers self) payload = Return 201%Z ->
   post_sentiment_comment self repo pr_number (r :: results)
   = ([post; Print (lit "[v0] Comment posted successfully")], Return tt)) /\
  (forall code,
      requests_post url (headers self) payload = Return code ->
      code <> 201%Z ->
      post_sentiment_comment self repo pr_number (r :: results)
      = ([post; Print (lit "[v0] Error posting comment: " ++ str_of_int code)],
         Return tt)) /\
  (forall e,
      requests_post url (headers self) payload = Raise e ->
      post_sentiment_comment self repo pr_number (r :: results)
      = ([post], Raise e)) /\
  posts (fst (post_sentiment_comment self repo pr_number (r :: results)))
  = [post].
Proof.
  intros url payload post.
  unfold post_sentiment_comment, bind. fold url. fold payload. fold post.
  destruct (requests_post url (headers self) payload) as [code | e].
  - destruct (Z.eqb_spec code 201) as [-> | Hne].
    + repeat split; try discriminate.
      intros code [= <-] H. contradiction.
    + repeat split; try discriminate.
      * intros [= ->]. contradiction.
      * intros code' [= <-] _. reflexivity.
  - repeat split; try discriminate. intros e' [= <-]. reflexivity.
Qed.

(** *** Fetching the comments *)

Lemma get_pr_comments_ok
      (self : SentimentAnalyzer) (repo : str) (pr_number : Z)
      (response : Response) :
  requests_get (lit "https://api.github.com/repos/" ++ repo ++ lit "/pulls/"
                  ++ str_of_int pr_number ++ lit "/comments")
               (headers self) = Return response ->
  status_code response = 200%Z ->
  get_pr_comments self repo pr_number = ([], response_json response).
Proof.
  intros Hget H200. unfold get_pr_comments, bind, lift.
  rewrite Hget, H200. cbn [Z.eqb Pos.eqb].
  destruct (response_json response); reflexivity.
Qed.

Lemma get_pr_comments_refused
      (self : SentimentAnalyzer) (repo : str) (pr_number : Z)
      (response : Response) :
  requests_get (lit "https://api.github.com/repos/" ++ repo ++ lit "/pulls/"
                  ++ str_of_int pr_number ++ lit "/comments")
               (headers self) = Return response ->
  status_code response <> 200%Z ->
  get_pr_comments self repo pr_number
  = ([Print (lit "[v0] Error fetching comments: "
               ++ str_of_int (status_code response))],
     Return []).
Proof.
  intros Hget Hne. unfold get_pr_comments, bind, lift. rewrite Hget.
  destruct (Z.eqb_spec (status_code response) 200); [contradiction|].
  reflexivity.
Qed.

Lemma get_pr_comments_posts_nothing
      (self : SentimentAnalyzer) (repo : str) (pr_number : Z) :
  posts (fst (get_pr_comments self repo pr_number)) = [].
Proof.
  unfold get_pr_comments.
  apply bind_posts_nothing; [reflexivity | intros response].
  destruct (status_code response =? 200)%Z; [reflexivity|].
  apply bind_posts_nothing; [reflexivity | intros _; reflexivity].
Qed.

(** X8.  [get_pr_comments] returns what [response.json()] gives for the
    status 200 and prints nothing; for any other status it prints the
    status code and returns the empty list without reading the body; an
    exception of [requests.get] is raised unchanged.  It never posts. *)
Theorem get_pr_comments_outcomes
        (self : SentimentAnalyzer) (repo : str) (pr_number : Z) :
  let url := lit "https://api.github.com/repos/" ++ repo ++ lit "/pulls/"
               ++ str_of_int pr_number ++ lit "/comments" in
  (forall response,
      requests_get url (headers self) = Return response ->
      status_code response = 200%Z ->
      get_pr_comments self repo pr_number = ([], response_json response)) /\
  (forall response,
      requests_get url (headers self) = Return response ->
      status_code response <> 200%Z ->
      get_pr_comments self repo pr_number
      = ([Print (lit "[v0] Error fetching comments: "
                   ++ str_of_int (status_code response))],
         Return [])) /\
  (forall e,
      requests_get url (headers self) = Raise e ->
      get_pr_comments self repo pr_number = ([], Raise e)) /\
  posts (fst (get_pr_comments self repo pr_number)) = [].
Proof.
  intros url. split; [|split; [|split]].
  - intros response. apply get_pr_comments_ok.
  - intros response. apply get_pr_comments_refused.
  - intros e He. unfold get_pr_comments, bind, lift. fold url.
    rewrite He. reflexivity.
  - apply get_pr_comments_posts_nothing.
Qed.

(** *** The loop of [main] *)

Abbreviation records_of := (records_of detect translate_text TextBlob).
Abbreviation supported_body := (supported_body detect).
Abbreviation main_analyze :=
  (main_analyze detect translate_text TextBlob requests_post requests_get).

Lemma main_loop_cons (comment : dict) (comments : list dict)
      (acc : list AnalysisRecord) (body : str) :
  dict_get comment (lit "body") = Some body ->
  loop (comment :: comments) acc
  = bind (process_comment body)
         (fun result =>
            match result with
            | Some r =>
                bind (print (lit "[v0] Analyzed: "
                               ++ sentiment_name (sentiment (sentiment_analysis r))))
                     (fun _ => loop comments (acc ++ [r]))
            | None => loop comments acc
            end).
Proof.
  intros H. cbn [main_loop]. unfold lift, getitem. rewrite H.
  rewrite bind_Return. cbv beta.
  destruct (bind (process_comment body) _) as [t o]. reflexivity.
Qed.

Lemma main_loop_no_body (comment : dict) (comments : list dict)
      (acc : list AnalysisRecord) :
  dict_get comment (lit "body") = None ->
  loop (comment :: comments) acc
  = ([], Raise (mk_exn KeyError (lit "'body'"))).
Proof.
  intros H. cbn [main_loop]. unfold lift, getitem. rewrite H. reflexivity.
Qed.

Lemma main_loop_posts_nothing (comments : list dict) (acc : list AnalysisRecord) :
  posts (fst (loop comments acc)) = [].
Proof.
  revert acc. induction comments as [|c comments IH]; intros acc.
  - reflexivity.
  - destruct (dict_get c (lit "body")) as [body |] eqn:Hb.
    + rewrite (main_loop_cons _ _ _ _ Hb).
      apply bind_posts_nothing; [apply process_comment_posts_nothing|].
      intros [r |]; [|apply IH].
      apply bind_posts_nothing; [reflexivity | intros _; apply IH].
    + rewrite (main_loop_no_body _ _ _ Hb). reflexivity.
Qed.

(** What one body contributes to the records. *)
Lemma records_of_cons (body : str) (bodies : list str) :
  records_of (body :: bodies)
  = match snd (process_comment body) with
    | Return (Some r) => [r]
    | _ => []
    end ++ records_of bodies.
Proof. reflexivity. Qed.

(** What the loop returns when no comment fails, after the records it
    started with. *)
Lemma main_loop_returns
        (comments : list dict) (bodies : list str) (acc : list AnalysisRecord) :
  Forall2 (fun comment body => dict_get comment (lit "body") = Some body)
          comments bodies ->
  (forall body e,
      In body bodies -> detect body = Raise e ->
      isinstance e LangDetectException = true) ->
  snd (loop comments acc) = Return (acc ++ records_of bodies).
Proof.
  intros Hb. revert acc.
  induction Hb as [|c body comments bodies Hc Hrest IH]; intros acc Hd.
  - unfold records_of. simpl. rewrite app_nil_r. reflexivity.
  - rewrite (main_loop_cons _ _ _ _ Hc), records_of_cons.
    assert (IH' : forall acc', snd (loop comments acc')
                               = Return (acc' ++ records_of bodies)).
    { intros acc'. apply IH. intros b e Hin. apply Hd. right. exact Hin. }
    destruct (process_comment body) as [t [[r |] | e]] eqn:Hp.
    + rewrite bind_Return. cbn [snd]. unfold print. rewrite bind_Return.
      cbn [snd]. rewrite IH', <- app_assoc. reflexivity.
    + rewrite bind_Return. cbn [snd]. rewrite IH'. reflexivity.
    + exfalso.
      destruct (process_comment_returns body) as (t' & r' & Hret).
      * intros e'. apply Hd. left. reflexivity.
      * rewrite Hret in Hp. discriminate.
Qed.

(** The original texts of the collected records are the bodies in which
    [detect] finds a supported language. *)
Lemma records_of_supported_bodies (bodies : list str) :
  map original_text (records_of bodies) = filter supported_body bodies /\
  List.length (records_of bodies) = List.length (filter supported_body bodies).
Proof.
  assert (H : map original_text (records_of bodies) = filter supported_body bodies).
  { induction bodies as [|body bodies IH]; [reflexivity|].
    rewrite records_of_cons, map_app, IH. cbn [filter].
    unfold supported_body at 2.
    destruct (detect_language body) as [[lang |] | e] eqn:Hdl.
    - apply detect_language_Some in Hdl as [Hd Hin].
      destruct (translate_to_english_total translate_text body lang)
        as (log & tr & Ht).
      rewrite (process_comment_supported _ _ _ _ _ _ _ Hd Hin Ht), Hd, Hin.
      reflexivity.
    - rewrite (process_comment_unsupported _ _ _ _ Hdl).
      unfold detect_language in Hdl.
      destruct (detect body) as [l | e]; [|reflexivity].
      destruct (str_in l SUPPORTED_LANGUAGES); [discriminate | reflexivity].
    - rewrite (process_comment_raises _ _ _ _ _ Hdl).
      unfold detect_language in Hdl.
      destruct (detect body) as [l | e']; [discriminate | reflexivity]. }
  split; [exact H|].
  rewrite <- H, length_map. reflexivity.
Qed.

(** X9.  When every comment has a [body] and [detect] raises nothing but
    [LangDetectException], the loop of [main] returns the records of the
    comments that [process_comment] does not skip, in the order of the
    comments.  Their original texts are the bodies in which [detect] finds
    a supported language, so there is one record for each of them. *)
Theorem main_loop_keeps_supported_bodies
        (comments : list dict) (bodies : list str) :
  Forall2 (fun comment body => dict_get comment (lit "body") = Some body)
          comments bodies ->
  (forall body e,
      In body bodies -> detect body = Raise e ->
      isinstance e LangDetectException = true) ->
  snd (loop comments []) = Return (records_of bodies) /\
  map original_text (records_of bodies) = filter supported_body bodies /\
  List.length (records_of bodies) = List.length (filter supported_body bodies).
Proof.
  intros Hb Hd. split; [|apply records_of_supported_bodies].
  rewrite (main_loop_returns comments bodies [] Hb Hd). reflexivity.
Qed.

(** A comment without a [body] stops the loop with [KeyError('body')]. *)
Lemma main_loop_raises_without_body
        (comments : list dict) (acc : list AnalysisRecord) :
  (forall comment body e,
      In comment comments -> dict_get comment (lit "body") = Some body ->
      detect body = Raise e -> isinstance e LangDetectException = true) ->
  Exists (fun comment => dict_get comment (lit "body") = None) comments ->
  snd (loop comments acc) = Raise (mk_exn KeyError (lit "'body'")).
Proof.
  intros Hd Hex. revert acc.
  induction comments as [|c comments IH]; intros acc.
  - inversion Hex.
  - destruct (dict_get c (lit "body")) as [body |] eqn:Hb.
    + assert (Hex' : Exists (fun comment => dict_get comment (lit "body") = None)
                            comments).
      { inversion Hex as [? ? H | ? ? H]; subst; [congruence | exact H]. }
      assert (IH' : forall acc', snd (loop comments acc')
                                 = Raise (mk_exn KeyError (lit "'body'"))).
      { intros acc'. apply IH; [|exact Hex'].
        intros c' b e Hin. apply Hd. right. exact Hin. }
      rewrite (main_loop_cons _ _ _ _ Hb).
      destruct (process_comment body) as [t [[r |] | e]] eqn:Hp.
      * rewrite bind_Return. cbn [snd]. unfold print. rewrite bind_Return.
        cbn [snd]. apply IH'.
      * rewrite bind_Return. cbn [snd]. apply IH'.
      * exfalso.
        destruct (process_comment_returns body) as (t' & r' & Hret).
        -- intros e'. apply (Hd c body e'); [left; reflexivity | exact Hb].
        -- rewrite Hret in Hp. discriminate.
    + rewrite (main_loop_no_body _ _ _ Hb). reflexivity.
Qed.

(** A comment without a [body] stops the loop with an exception, whatever
    [detect] does on the comments before it. *)
Lemma main_loop_stops_without_body
        (comments : list dict) (acc : list AnalysisRecord) :
  Exists (fun comment => dict_get comment (lit "body") = None) comments ->
  exists e, snd (loop comments acc) = Raise e.
Proof.
  intros Hex. revert acc.
  induction comments as [|c comments IH]; intros acc.
  - inversion Hex.
  - destruct (dict_get c (lit "body")) as [body |] eqn:Hb.
    + assert (Hex' : Exists (fun comment => dict_get comment (lit "body") = None)
                            comments).
      { inversion Hex as [? ? H | ? ? H]; subst; [congruence | exact H]. }
      rewrite (main_loop_cons _ _ _ _ Hb).
      destruct (process_comment body) as [t [[r |] | e]].
      * rewrite bind_Return. cbn [snd]. unfold print. rewrite bind_Return.
        cbn [snd]. apply (IH Hex').
      * rewrite bind_Return. cbn [snd]. apply (IH Hex').
      * rewrite bind_Raise. exists e. reflexivity.
    + rewrite (main_loop_no_body _ _ _ Hb). eexists. reflexivity.
Qed.

(** *** The entry point *)

Lemma bind_posts_at_most_once {A B : Type} (m : M A) (f : A -> M B) :
  posts (fst m) = [] ->
  (forall a, (List.length (posts (fst (f a))) <= 1)%nat) ->
  (List.length (posts (fst (bind m f))) <= 1)%nat.
Proof.
  intros Hm Hf. destruct m as [t [a | e]].
  - rewrite bind_Return. simpl fst in *. rewrite posts_app, Hm. apply Hf.
  - simpl fst in *. rewrite Hm. simpl. lia.
Qed.

Lemma main_analyze_posts_at_most_once (github_token github_repository : str)
      (pr_number : Z) :
  (List.length
     (posts (fst (main_analyze github_token github_repository pr_number)))
   <= 1)%nat.
Proof.
  unfold main_analyze.
  apply bind_posts_at_most_once; [reflexivity | intros _].
  apply bind_posts_at_most_once; [apply get_pr_comments_posts_nothing | intros comments].
  apply bind_posts_at_most_once; [reflexivity | intros _].
  apply bind_posts_at_most_once; [apply main_loop_posts_nothing | intros [|r rs]].
  - simpl. lia.
  - rewrite post_sentiment_comment_posts_once. simpl. lia.
Qed.

(** X10.  When one of [GITHUB_TOKEN], [GITHUB_REPOSITORY] and
    [GITHUB_EVENT_PATH] is unset or empty, [main] prints that the
    environment is incomplete and does nothing else. *)
Theorem main_without_environment :
  truthy (getenv (lit "GITHUB_TOKEN")) = false \/
  truthy (getenv (lit "GITHUB_REPOSITORY")) = false \/
  truthy (getenv (lit "GITHUB_EVENT_PATH")) = false ->
  main = ([Print (lit "[v0] Missing required environment variables")], Return tt).
Proof.
  intros H. unfold main. cbn [forallb].
  destruct (truthy (getenv (lit "GITHUB_TOKEN")));
    destruct (truthy (getenv (lit "GITHUB_REPOSITORY")));
    destruct (truthy (getenv (lit "GITHUB_EVENT_PATH")));
    try reflexivity.
  destruct H as [H | [H | H]]; discriminate H.
Qed.

(** X11.  With the three variables set, [main] reads the event file.  An
    exception of the reading is raised unchanged; an event without
    [pull_request], without [number], or with the number 0 makes [main]
    print that there is no PR number and stop; any other number starts
    the analysis of that pull request. *)
Theorem main_with_environment (github_token github_repository path : str) :
  getenv (lit "GITHUB_TOKEN") = Some github_token ->
  getenv (lit "GITHUB_REPOSITORY") = Some github_repository ->
  getenv (lit "GITHUB_EVENT_PATH") = Some path ->
  github_token <> [] -> github_repository <> [] -> path <> [] ->
  (forall e, load_event path = Raise e -> main = ([], Raise e)) /\
  (forall event,
      load_event path = Return event ->
      pull_request event = None \/
      (exists pr, pull_request event = Some pr /\
                  (number pr = None \/ number pr = Some 0%Z)) ->
      main = ([Print (lit "[v0] No PR number found in event")], Return tt)) /\
  (forall event pr pr_number,
      load_event path = Return event ->
      pull_request event = Some pr ->
      number pr = Some pr_number ->
      pr_number <> 0%Z ->
      main = main_analyze github_token github_repository pr_number).
Proof.
  intros Ht Hr Hp Ht' Hr' Hp'. unfold main. rewrite Ht, Hr, Hp.
  destruct github_token as [|c1 tok]; [congruence|].
  destruct github_repository as [|c2 repo]; [congruence|].
  destruct path as [|c3 path]; [congruence|].
  cbn [forallb truthy andb negb]. unfold lift.
  split; [|split].
  - intros e ->. reflexivity.
  - intros event -> [Hn | (pr & Hpr & [Hn | Hn])].
    + rewrite bind_Return, Hn. reflexivity.
    + rewrite bind_Return, Hpr, Hn. reflexivity.
    + rewrite bind_Return, Hpr, Hn. reflexivity.
  - intros event pr n -> Hpr Hn Hnz.
    rewrite bind_Return, Hpr, Hn.
    destruct n as [| n | n]; [congruence | |];
      cbn [truthy_int negb app];
      destruct (main_analyze _ _ _); reflexivity.
Qed.

(** X12.  [main] posts at most one comment, whatever its collaborators
    do. *)
Theorem main_posts_at_most_once :
  (List.length (posts (fst main)) <= 1)%nat.
Proof.
  unfold main.
  destruct (negb (forallb truthy _)); [simpl; lia|].
  destruct (getenv (lit "GITHUB_TOKEN")) as [tok |]; [|simpl; lia].
  destruct (getenv (lit "GITHUB_REPOSITORY")) as [repo |]; [|simpl; lia].
  destruct (getenv (lit "GITHUB_EVENT_PATH")) as [path |]; [|simpl; lia].
  apply bind_posts_at_most_once; [reflexivity | intros event].
  destruct (negb (truthy_int _)); [simpl; lia|].
  destruct (match pull_request event with Some pr => number pr | None => None end)
    as [n |]; [|simpl; lia].
  apply main_analyze_posts_at_most_once.
Qed.

(** What the analysis does after a successful fetch. *)
Lemma main_analyze_fetched (github_token github_repository : str)
      (pr_number : Z) (response : Response) (comments : list dict) :
  requests_get (lit "https://api.github.com/repos/" ++ github_repository
                  ++ lit "/pulls/" ++ str_of_int pr_number ++ lit "/comments")
               (headers (init github_token)) = Return response ->
  status_code response = 200%Z ->
  response_json response = Return comments ->
  main_analyze github_token github_repository pr_number
  = bind ([Print (lit "[v0] Processing PR #" ++ str_of_int pr_number
                    ++ lit " in " ++ github_repository);
           Print (lit "[v0] Found "
                    ++ str_of_int (Z.of_nat (List.length comments))
                    ++ lit " comments")],
          Return tt)
         (fun _ =>
            bind (loop comments [])
                 (fun analysis_results =>
                    match analysis_results with
                    | _ :: _ =>
                        post_sentiment_comment (init github_token)
                          github_repository pr_number analysis_results
                    | [] =>
                        print (lit "[v0] No non-English comments found to analyze")
                    end)).
Proof.
  intros Hget H200 Hjson. unfold main_analyze.
  rewrite (get_pr_comments_ok _ _ _ _ Hget H200), Hjson.
  unfold print. rewrite !bind_Return. reflexivity.
Qed.

(** X13.  After a successful fetch of comments that all have a [body],
    and when [detect] raises nothing but [LangDetectException] on these
    bodies, [main] posts one report with the rows of the collected
    records, in the order of the comments, or posts nothing when every
    comment is skipped. *)
Theorem main_analyze_posts_the_report
        (github_token github_repository : str) (pr_number : Z)
        (response : Response) (comments : list dict) (bodies : list str) :
  requests_get (lit "https://api.github.com/repos/" ++ github_repository
                  ++ lit "/pulls/" ++ str_of_int pr_number ++ lit "/comments")
               (headers (init github_token)) = Return response ->
  status_code response = 200%Z ->
  response_json response = Return comments ->
  Forall2 (fun comment body => dict_get comment (lit "body") = Some body)
          comments bodies ->
  (forall body e,
      In body bodies -> detect body = Raise e ->
      isinstance e LangDetectException = true) ->
  posts (fst (main_analyze github_token github_repository pr_number))
  = match records_of bodies with
    | [] => []
    | _ :: _ =>
        [HttpPost (lit "https://api.github.com/repos/" ++ github_repository
                     ++ lit "/issues/" ++ str_of_int pr_number
                     ++ lit "/comments")
                  (headers (init github_token))
                  [(lit "body",
                    report_header
                      ++ List.concat (map render_row (records_of bodies)))]]
    end.
Proof.
  intros Hget H200 Hjson Hb Hd.
  rewrite (main_analyze_fetched _ _ _ _ _ Hget H200 Hjson), bind_Return.
  cbn [fst]. rewrite posts_app. cbn [posts filter is_post app].
  pose proof (main_loop_returns comments bodies [] Hb Hd) as Hl.
  pose proof (main_loop_posts_nothing comments []) as Hn.
  destruct (loop comments []) as [t o]. cbn [fst snd app] in *. subst o.
  rewrite bind_Return. cbn [fst]. rewrite posts_app, Hn. cbn [app].
  destruct (records_of bodies) as [|r rs]; [reflexivity|].
  rewrite post_sentiment_comment_posts_once, build_comment_body_rows.
  reflexivity.
Qed.

(** X14.  After a successful fetch, one comment without a [body] makes
    [main] raise without posting anything, also when other comments were
    analysed.  The exception is [KeyError('body')] when [detect] raises
    nothing but [LangDetectException] on the bodies of the comments. *)
Theorem main_analyze_aborts_without_body
        (github_token github_repository : str) (pr_number : Z)
        (response : Response) (comments : list dict) :
  requests_get (lit "https://api.github.com/repos/" ++ github_repository
                  ++ lit "/pulls/" ++ str_of_int pr_number ++ lit "/comments")
               (headers (init github_token)) = Return response ->
  status_code response = 200%Z ->
  response_json response = Return comments ->
  Exists (fun comment => dict_get comment (lit "body") = None) comments ->
  (exists e,
      snd (main_analyze github_token github_repository pr_number) = Raise e) /\
  posts (fst (main_analyze github_token github_repository pr_number)) = [] /\
  ((forall comment body e,
       In comment comments -> dict_get comment (lit "body") = Some body ->
       detect body = Raise e -> isinstance e LangDetectException = true) ->
   snd (main_analyze github_token github_repository pr_number)
   = Raise (mk_exn KeyError (lit "'body'"))).
Proof.
  intros Hget H200 Hjson Hex.
  rewrite (main_analyze_fetched _ _ _ _ _ Hget H200 Hjson), bind_Return.
  destruct (main_loop_stops_without_body comments [] Hex) as [e0 Hl].
  pose proof (main_loop_posts_nothing comments []) as Hn.
  pose proof (fun Hd => main_loop_raises_without_body comments [] Hd Hex) as Hk.
  destruct (loop comments []) as [t o]. cbn [fst snd] in *. subst o.
  rewrite bind_Raise. cbn [fst snd].
  split; [exists e0; reflexivity|].
  split; [rewrite posts_app, Hn; reflexivity|].
  intros Hd. specialize (Hk Hd). injection Hk as ->. reflexivity.
Qed.

(** X15.  When the fetch answers with a status other than 200, [main]
    reports the status, finds no comment, posts nothing and ends
    normally. *)
Theorem main_analyze_fetch_refused
        (github_token github_repository : str) (pr_number : Z)
        (response : Response) :
  requests_get (lit "https://api.github.com/repos/" ++ github_repository
                  ++ lit "/pulls/" ++ str_of_int pr_number ++ lit "/comments")
               (headers (init github_token)) = Return response ->
  status_code response <> 200%Z ->
  main_analyze github_token github_repository pr_number
  = ([Print (lit "[v0] Processing PR #" ++ str_of_int pr_number
               ++ lit " in " ++ github_repository);
      Print (lit "[v0] Error fetching comments: "
               ++ str_of_int (status_code response));
      Print (lit "[v0] Found 0 comments");
      Print (lit "[v0] No non-English comments found to analyze")],
     Return tt).
Proof.
  intros Hget Hne. unfold main_analyze.
  rewrite (get_pr_comments_refused _ _ _ _ Hget Hne). reflexivity.
Qed.

End MoreProperties.

(** ** Floats: the order *)

Lemma SFcompare_opp (a b : spec_float) :
  SFcompare (SFopp a) (SFopp b) = SFcompare b a.
Proof.
  destruct a as [[|] | [|] | | [|] m e], b as [[|] | [|] | | [|] m' e'];
    cbn [SFopp SFcompare negb]; try reflexivity;
    rewrite (Z.compare_antisym e e');
    change (Pos.compare_cont Eq m' m) with (Pos.compare m' m);
    change (Pos.compare_cont Eq m m') with (Pos.compare m m');
    rewrite (Pos.compare_antisym m m');
    destruct (Z.compare e e'), (Pos.compare m m'); reflexivity.
Qed.

Lemma ltb_opp (p q : float) : (- p <? - q)%float = (q <? p)%float.
Proof.
  rewrite !ltb_spec, !opp_spec. unfold SFltb. rewrite SFcompare_opp.
  reflexivity.
Qed.

Lemma SFcompare_lt_le_trans (a b c : spec_float) :
  SFltb a b = true -> SFleb b c = true -> SFltb a c = true.
Proof.
  unfold SFltb, SFleb.
  destruct a as [[|] | [|] | | [|] m1 e1], b as [[|] | [|] | | [|] m2 e2],
           c as [[|] | [|] | | [|] m3 e3];
    cbn [SFcompare]; try discriminate; try reflexivity;
    order_cases; try discriminate; try reflexivity; intros _ _; exfalso; lia.
Qed.

Lemma SFcompare_le_lt_trans (a b c : spec_float) :
  SFleb a b = true -> SFltb b c = true -> SFltb a c = true.
Proof.
  unfold SFltb, SFleb.
  destruct a as [[|] | [|] | | [|] m1 e1], b as [[|] | [|] | | [|] m2 e2],
           c as [[|] | [|] | | [|] m3 e3];
    cbn [SFcompare]; try discriminate; try reflexivity;
    order_cases; try discriminate; try reflexivity; intros _ _; exfalso; lia.
Qed.

(** ** Floats: the order and the exact values *)

Section Values.
Local Open Scope Q_scope.

Lemma digits2_pos_lower (m : positive) :
  (2 ^ (Zpos (digits2_pos m) - 1) <= Zpos m)%Z.
Proof.
  induction m as [m IH | m IH |]; simpl digits2_pos;
    try (rewrite Pos2Z.inj_succ;
         replace (Z.succ (Zpos (digits2_pos m)) - 1)%Z
           with (Z.succ (Zpos (digits2_pos m) - 1)) by lia;
         rewrite Z.pow_succ_r by lia; lia).
  reflexivity.
Qed.

(** A valid finite double has an exponent of at least [emin], a mantissa
    below [2^53], and a mantissa of at least [2^52] above [emin]. *)
Lemma valid_finite_bounds (s : bool) (m : positive) (e : Z) :
  valid_binary (S754_finite s m e) = true ->
  (-1074 <= e)%Z /\ (Zpos m < 2 ^ 53)%Z /\
  ((-1074 < e)%Z -> (2 ^ 52 <= Zpos m)%Z).
Proof.
  intros Hv. pose proof (valid_mantissa_bound s m e Hv) as Hm.
  revert Hv.
  unfold valid_binary, bounded, canonical_mantissa, fexp, SpecFloat.emin.
  rewrite andb_true_iff, Z.eqb_eq. intros [Hc _].
  change prec with 53%Z in Hc. change emax with 1024%Z in Hc.
  pose proof (digits2_pos_lower m) as Hl.
  split; [lia|]. split; [exact Hm|].
  intros He.
  assert (Hd : Zpos (digits2_pos m) = 53%Z) by lia.
  rewrite Hd in Hl. exact Hl.
Qed.

Lemma Qpow2_pos (e : Z) : 0 < Qpow2 e.
Proof. apply Qpower_0_lt. reflexivity. Qed.

(** The value at a larger exponent, in units of a smaller one. *)
Lemma Qvalue_shift (m : positive) (e d : Z) :
  (0 <= d)%Z ->
  Qvalue m (e + d) == inject_Z (Zpos m * 2 ^ d) * Qpow2 e.
Proof.
  intros Hd. unfold Qvalue, Qpow2.
  rewrite Qpower_plus by discriminate.
  rewrite inject_Z_mult, (Zpower_Qpower 2 d Hd).
  change (inject_Z 2) with (2 # 1). ring.
Qed.

Lemma Qvalue_lt_mantissa (m1 m2 : positive) (e : Z) :
  (Zpos m1 < Zpos m2)%Z -> Qvalue m1 e < Qvalue m2 e.
Proof.
  intros H. unfold Qvalue. apply Qmult_lt_compat_r; [apply Qpow2_pos|].
  rewrite <- Zlt_Qlt. exact H.
Qed.

Lemma Qvalue_lt_exponent (m1 m2 : positive) (e1 e2 : Z) :
  (Zpos m1 < 2 ^ 53)%Z -> (2 ^ 52 <= Zpos m2)%Z -> (e1 < e2)%Z ->
  Qvalue m1 e1 < Qvalue m2 e2.
Proof.
  intros H1 H2 He.
  replace e2 with (e1 + (e2 - e1))%Z by lia.
  rewrite Qvalue_shift by lia.
  unfold Qvalue. apply Qmult_lt_compat_r; [apply Qpow2_pos|].
  rewrite <- Zlt_Qlt.
  assert (Hp : (2 ^ 1 <= 2 ^ (e2 - e1))%Z) by (apply Z.pow_le_mono_r; lia).
  change (2 ^ 1)%Z with 2%Z in Hp.
  change (2 ^ 53)%Z with 9007199254740992%Z in H1.
  change (2 ^ 52)%Z with 4503599627370496%Z in H2.
  nia.
Qed.

(** On valid finite doubles of positive sign, [SFcompare] is the order of
    the exact values. *)
Lemma SFcompare_Qcompare (m1 m2 : positive) (e1 e2 : Z) :
  valid_binary (S754_finite false m1 e1) = true ->
  valid_binary (S754_finite false m2 e2) = true ->
  SFcompare (S754_finite false m1 e1) (S754_finite false m2 e2)
  = Some (Qcompare (Qvalue m1 e1) (Qvalue m2 e2)).
Proof.
  intros Hv1 Hv2.
  apply valid_finite_bounds in Hv1 as (Hmin1 & Hup1 & Hlow1).
  apply valid_finite_bounds in Hv2 as (Hmin2 & Hup2 & Hlow2).
  cbn [SFcompare]. f_equal.
  change (Pos.compare_cont Eq m1 m2) with (Pos.compare m1 m2).
  destruct (Z.compare_spec e1 e2) as [-> | He | He].
  - destruct (Pos.compare_spec m1 m2) as [-> | Hm | Hm]; symmetry.
    + apply Qeq_alt. reflexivity.
    + apply Qlt_alt, Qvalue_lt_mantissa. lia.
    + apply Qgt_alt, Qvalue_lt_mantissa. lia.
  - symmetry. apply Qlt_alt, Qvalue_lt_exponent; [exact Hup1 | apply Hlow2; lia | exact He].
  - symmetry. apply Qgt_alt, Qvalue_lt_exponent; [exact Hup2 | apply Hlow1; lia | exact He].
Qed.

End Values.

(** ** Floats: rounding a score *)

Section Scores.
Local Open Scope Q_scope.

(** The exact value of the double [0.1]. *)
Lemma Prim2SF_tenth :
  Prim2SF 0.1 = S754_finite false 7205759403792794 (-56) /\
  Prim2SF (- 0.1) = S754_finite true 7205759403792794 (-56).
Proof. split; reflexivity. Qed.

Lemma valid_tenth :
  valid_binary (S754_finite false 7205759403792794 (-56)) = true.
Proof. vm_compute. reflexivity. Qed.

Lemma round_half_even_lower (q : Q) (n : Z) :
  inject_Z n <= q -> (n <= round_half_even q)%Z.
Proof.
  intros H.
  assert (Hf : (n <= Qfloor q)%Z).
  { rewrite <- (Qfloor_Z n). apply Qfloor_resp_le, H. }
  unfold round_half_even.
  destruct (q - inject_Z (Qfloor q) ?= 1 # 2); [|lia|lia].
  destruct (Z.even (Qfloor q)); lia.
Qed.

Lemma round_half_even_upper (q b : Q) (n : Z) :
  q <= b -> b - inject_Z n < 1 # 2 -> (round_half_even q <= n)%Z.
Proof.
  intros Hq Hb.
  assert (Hbn : b < inject_Z n + (1 # 2)).
  { apply (Qplus_lt_l _ _ (- inject_Z n)). ring_simplify.
    setoid_replace (b - inject_Z n) with (b + -1 * inject_Z n) in Hb by ring.
    exact Hb. }
  assert (Hf : (Qfloor q <= n)%Z).
  { assert (H : inject_Z (Qfloor q) < inject_Z (n + 1)).
    { apply Qle_lt_trans with q; [apply Qfloor_le|].
      apply Qle_lt_trans with b; [exact Hq|].
      apply Qlt_le_trans with (inject_Z n + (1 # 2)); [exact Hbn|].
      rewrite inject_Z_plus. apply Qplus_le_r. discriminate. }
    rewrite <- Zlt_Qlt in H. lia. }
  unfold round_half_even.
  assert (Hup : Qfloor q = n -> (q - inject_Z (Qfloor q) ?= 1 # 2) = Lt).
  { intros ->. apply Qlt_alt. apply Qle_lt_trans with (b - inject_Z n); [|exact Hb].
    apply Qplus_le_l. exact Hq. }
  destruct (Z.eq_dec (Qfloor q) n) as [Heq | Hne].
  - rewrite (Hup Heq). lia.
  - destruct (q - inject_Z (Qfloor q) ?= 1 # 2); [|lia|lia].
    destruct (Z.even (Qfloor q)); lia.
Qed.

(** [round(p, 2)] of a finite double, by the rounded hundredths. *)
Lemma py_round_finite (p : float) (s : bool) (m : positive) (e : Z) :
  Prim2SF p = S754_finite s m e ->
  py_round p 2
  = match round_half_even (Qvalue m e * inject_Z 100) with
    | Zpos k => nearest_float s k 100
    | _ => signed_zero s
    end.
Proof. intros H. unfold py_round. rewrite H. reflexivity. Qed.

Lemma py_round_zero (p : float) (s : bool) :
  Prim2SF p = S754_zero s -> py_round p 2 = signed_zero s.
Proof.
  intros H. unfold py_round. rewrite H.
  rewrite <- (SF2Prim_Prim2SF p), H. destruct s; reflexivity.
Qed.

(** The order of a finite double and [0.1], on the exact values. *)
Lemma compare_with_tenth (p : float) (m : positive) (e : Z) :
  Prim2SF p = S754_finite false m e ->
  ((0.1 <? p)%float = true -> Qvalue 7205759403792794 (-56) < Qvalue m e) /\
  ((0.1 <? p)%float = false -> Qvalue m e <= Qvalue 7205759403792794 (-56)).
Proof.
  intros Hp. pose proof (Prim2SF_valid p) as Hv. rewrite Hp in Hv.
  rewrite ltb_spec, Hp, (proj1 Prim2SF_tenth). unfold SFltb.
  rewrite (SFcompare_Qcompare 7205759403792794 m (-56) e valid_tenth Hv).
  destruct (Qvalue 7205759403792794 (-56) ?= Qvalue m e) eqn:Hc; split;
    try discriminate; intros _.
  - apply Qeq_alt in Hc. rewrite Hc. apply Qle_refl.
  - apply Qlt_alt. exact Hc.
  - apply Qlt_le_weak, Qgt_alt. exact Hc.
Qed.

Lemma compare_with_minus_tenth (p : float) (m : positive) (e : Z) :
  Prim2SF p = S754_finite true m e ->
  ((p <? - 0.1)%float = true -> Qvalue 7205759403792794 (-56) < Qvalue m e) /\
  ((p <? - 0.1)%float = false -> Qvalue m e <= Qvalue 7205759403792794 (-56)).
Proof.
  intros Hp. pose proof (Prim2SF_valid p) as Hv. rewrite Hp in Hv.
  rewrite ltb_spec, Hp, (proj2 Prim2SF_tenth). unfold SFltb.
  change (SFcompare (S754_finite true m e)
                    (S754_finite true 7205759403792794 (-56)))
    with (SFcompare (SFopp (S754_finite false m e))
                    (SFopp (S754_finite false 7205759403792794 (-56)))).
  rewrite SFcompare_opp.
  rewrite (SFcompare_Qcompare 7205759403792794 m (-56) e valid_tenth Hv).
  destruct (Qvalue 7205759403792794 (-56) ?= Qvalue m e) eqn:Hc; split;
    try discriminate; intros _.
  - apply Qeq_alt in Hc. rewrite Hc. apply Qle_refl.
  - apply Qlt_alt. exact Hc.
  - apply Qlt_le_weak, Qgt_alt. exact Hc.
Qed.

End Scores.

(** ** Scores and their class *)

Lemma In_hundredths (k : positive) :
  (Zpos k <= 100)%Z -> In k hundredths.
Proof.
  intros H. unfold hundredths. rewrite <- (Pos2Nat.id k).
  apply in_map, in_seq. lia.
Qed.

(** The doubles nearest to the hundredths, against the bounds of a score
    and against the thresholds of the classification. *)
Lemma hundredths_table (k : positive) :
  In k hundredths ->
  let x := nearest_float false k 100 in
  let y := nearest_float true k 100 in
  ((0 <=? x) && (x <=? 1) && (- 1 <=? x) && (- 1 <=? y) && (y <=? 0)
   && (y <=? 1))%float = true /\
  ((10 <=? k)%positive = true ->
   ((0.1 <=? x) && (y <=? - 0.1))%float = true) /\
  ((k <=? 10)%positive = true ->
   ((- 0.1 <=? x) && (x <=? 0.1) && (- 0.1 <=? y) && (y <=? 0.1))%float = true).
Proof.
  intros Hin.
  assert (H : forallb
                (fun k =>
                   let x := nearest_float false k 100 in
                   let y := nearest_float true k 100 in
                   ((0 <=? x) && (x <=? 1) && (- 1 <=? x) && (- 1 <=? y) && (y <=? 0)
   && (y <=? 1))%float
                   && (if (10 <=? k)%positive
                       then ((0.1 <=? x) && (y <=? - 0.1))%float else true)
                   && (if (k <=? 10)%positive
                       then ((- 0.1 <=? x) && (x <=? 0.1) && (- 0.1 <=? y)
                             && (y <=? 0.1))%float
                       else true))
                hundredths = true) by (vm_compute; reflexivity).
  rewrite forallb_forall in H. specialize (H k Hin). cbv zeta in H.
  apply andb_true_iff in H as [H H3]. apply andb_true_iff in H as [H1 H2].
  cbv zeta. split; [exact H1|]. split; intros Hk.
  - rewrite Hk in H2. exact H2.
  - rewrite Hk in H3. exact H3.
Qed.

Lemma signed_zero_table (s : bool) :
  ((- 1 <=? signed_zero s) && (signed_zero s <=? 1)
   && (0 <=? signed_zero s) && (signed_zero s <=? 0)
   && (- 0.1 <=? signed_zero s) && (signed_zero s <=? 0.1))%float = true.
Proof. destruct s; vm_compute; reflexivity. Qed.

Section ScoreBounds.
Local Open Scope Q_scope.

(** The hundredths of a score between -1 and 1. *)
Lemma py_round_score (p : float) (s : bool) (m : positive) (e : Z) :
  Prim2SF p = S754_finite s m e ->
  (- 1 <=? p)%float = true -> (p <=? 1)%float = true ->
  (0 <= round_half_even (Qvalue m e * inject_Z 100) <= 100)%Z.
Proof.
  intros Hp Hlo Hhi.
  pose proof (unit_interval_value p s m e Hp Hlo Hhi) as Hv.
  apply round_half_even_bounds.
  - apply Qmult_le_0_compat; [apply Qvalue_nonneg | discriminate].
  - rewrite <- (Qmult_1_l (inject_Z 100)) at 2.
    apply Qmult_le_compat_r; [exact Hv | discriminate].
Qed.

Lemma hundredths_above_tenth (m : positive) (e : Z) :
  Qvalue 7205759403792794 (-56) < Qvalue m e ->
  (10 <= round_half_even (Qvalue m e * inject_Z 100))%Z.
Proof.
  intros H. apply round_half_even_lower.
  apply Qle_trans with (Qvalue 7205759403792794 (-56) * inject_Z 100).
  - apply Qle_bool_imp_le. vm_compute. reflexivity.
  - apply Qmult_le_compat_r; [apply Qlt_le_weak, H | discriminate].
Qed.

Lemma hundredths_up_to_tenth (m : positive) (e : Z) :
  Qvalue m e <= Qvalue 7205759403792794 (-56) ->
  (round_half_even (Qvalue m e * inject_Z 100) <= 10)%Z.
Proof.
  intros H.
  apply round_half_even_upper
    with (b := Qvalue 7205759403792794 (-56) * inject_Z 100).
  - apply Qmult_le_compat_r; [exact H | discriminate].
  - apply Qlt_alt. vm_compute. reflexivity.
Qed.

End ScoreBounds.

(** The sign of a finite double by its order with the thresholds. *)
Lemma sign_of_finite (p : float) (s : bool) (m : positive) (e : Z) :
  Prim2SF p = S754_finite s m e ->
  (if s then (0.1 <? p)%float = false /\ (0 <=? p)%float = false
   else (p <? - 0.1)%float = false).
Proof.
  intros Hp. rewrite !ltb_spec, ?leb_spec, Hp.
  rewrite (proj1 Prim2SF_tenth), (proj2 Prim2SF_tenth).
  destruct s; [split|]; reflexivity.
Qed.

(** [round(p, 2)] of a score between -1 and 1, against the thresholds. *)
Lemma rounded_score_agrees (p : float) :
  (- 1 <=? p)%float = true -> (p <=? 1)%float = true ->
  ((- 1 <=? py_round p 2)%float = true /\ (py_round p 2 <=? 1)%float = true) /\
  ((0 <=? p)%float = true -> (0 <=? py_round p 2)%float = true) /\
  ((0.1 <? p)%float = true -> (0.1 <=? py_round p 2)%float = true) /\
  ((p <? - 0.1)%float = true -> (py_round p 2 <=? - 0.1)%float = true) /\
  ((0.1 <? p)%float = false -> (p <? - 0.1)%float = false ->
   (- 0.1 <=? py_round p 2)%float = true /\
   (py_round p 2 <=? 0.1)%float = true).
Proof.
  intros Hlo Hhi.
  destruct (Prim2SF p) as [s | s | | s m e] eqn:Hp.
  - (* a zero *)
    rewrite (py_round_zero p s Hp).
    pose proof (signed_zero_table s) as T.
    repeat (apply andb_true_iff in T as [T ?]).
    assert (Ha : (0.1 <? p)%float = false)
      by (rewrite ltb_spec, Hp, (proj1 Prim2SF_tenth); reflexivity).
    assert (Hb : (p <? - 0.1)%float = false)
      by (rewrite ltb_spec, Hp, (proj2 Prim2SF_tenth); reflexivity).
    rewrite Ha, Hb. repeat split; intros; first [assumption | congruence].
  - exfalso. rewrite leb_spec, Hp in Hlo, Hhi.
    destruct s; [discriminate Hlo | discriminate Hhi].
  - exfalso. rewrite leb_spec, Hp in Hhi. discriminate Hhi.
  - pose proof (py_round_score p s m e Hp Hlo Hhi) as [Hk0 Hk100].
    pose proof (sign_of_finite p s m e Hp) as Hs.
    rewrite (py_round_finite p s m e Hp).
    pose proof (signed_zero_table s) as Z0.
    repeat (apply andb_true_iff in Z0 as [Z0 ?]).
    destruct s.
    + (* a negative score *)
      destruct Hs as [Ha Hnonneg]. rewrite Ha, Hnonneg.
      destruct (compare_with_minus_tenth p m e Hp) as [Hbelow Hnot].
      destruct (round_half_even (Qvalue m e * inject_Z 100)) as [| k | k] eqn:Hk.
      * destruct (p <? - 0.1)%float.
        -- specialize (Hbelow eq_refl). apply hundredths_above_tenth in Hbelow.
           rewrite Hk in Hbelow. clear - Hbelow. exfalso. lia.
        -- repeat split; intros; first [assumption | congruence].
      * destruct (hundredths_table k (In_hundredths k Hk100)) as (T1 & T2 & T3).
        cbv zeta in T1, T2, T3.
        repeat (apply andb_true_iff in T1 as [T1 ?]).
        destruct (p <? - 0.1)%float.
        -- specialize (Hbelow eq_refl). apply hundredths_above_tenth in Hbelow.
           rewrite Hk in Hbelow.
           assert (Hk10 : (10 <=? k)%positive = true)
             by (apply Pos.leb_le; clear - Hbelow; lia).
           apply T2, andb_true_iff in Hk10 as [_ Hy].
           repeat split; intros; first [assumption | congruence].
        -- specialize (Hnot eq_refl). apply hundredths_up_to_tenth in Hnot.
           rewrite Hk in Hnot.
           assert (Hk10 : (k <=? 10)%positive = true)
             by (apply Pos.leb_le; clear - Hnot; lia).
           apply T3 in Hk10.
           repeat (apply andb_true_iff in Hk10 as [Hk10 ?]).
           repeat split; intros; first [assumption | congruence].
      * clear - Hk0. exfalso. lia.
    + (* a positive score *)
      rewrite Hs.
      destruct (compare_with_tenth p m e Hp) as [Habove Hnot].
      destruct (round_half_even (Qvalue m e * inject_Z 100)) as [| k | k] eqn:Hk.
      * destruct (0.1 <? p)%float.
        -- specialize (Habove eq_refl). apply hundredths_above_tenth in Habove.
           rewrite Hk in Habove. clear - Habove. exfalso. lia.
        -- repeat split; intros; first [assumption | congruence].
      * destruct (hundredths_table k (In_hundredths k Hk100)) as (T1 & T2 & T3).
        cbv zeta in T1, T2, T3.
        repeat (apply andb_true_iff in T1 as [T1 ?]).
        destruct (0.1 <? p)%float.
        -- specialize (Habove eq_refl). apply hundredths_above_tenth in Habove.
           rewrite Hk in Habove.
           assert (Hk10 : (10 <=? k)%positive = true)
             by (apply Pos.leb_le; clear - Habove; lia).
           apply T2, andb_true_iff in Hk10 as [Hx _].
           repeat split; intros; first [assumption | congruence].
        -- specialize (Hnot eq_refl). apply hundredths_up_to_tenth in Hnot.
           rewrite Hk in Hnot.
           assert (Hk10 : (k <=? 10)%positive = true)
             by (apply Pos.leb_le; clear - Hnot; lia).
           apply T3 in Hk10.
           repeat (apply andb_true_iff in Hk10 as [Hk10 ?]).
           repeat split; intros; first [assumption | congruence].
      * clear - Hk0. exfalso. lia.
Qed.

Lemma nonnegative_is_above_minus_one (x : float) :
  (0 <=? x)%float = true -> (- 1 <=? x)%float = true.
Proof.
  rewrite !leb_spec.
  change (Prim2SF 0) with (S754_zero false).
  change (Prim2SF (- 1)) with (S754_finite true 4503599627370496 (-52)).
  unfold SFleb.
  destruct (Prim2SF x) as [[|] | [|] | | [|] m e]; cbn [SFcompare];
    first [discriminate | intros _; reflexivity].
Qed.

(** X16.  Rounding keeps the scores in their ranges: a polarity between
    -1 and 1 is stored as a value between -1 and 1, and a subjectivity
    between 0 and 1 as a value between 0 and 1. *)
Theorem stored_scores_stay_in_range
        (TextBlob : str -> float * float) (text : str) :
  let result := analyze_sentiment TextBlob text in
  ((- 1 <=? fst (TextBlob text))%float = true ->
   (fst (TextBlob text) <=? 1)%float = true ->
   (- 1 <=? polarity result)%float = true /\
   (polarity result <=? 1)%float = true) /\
  ((0 <=? snd (TextBlob text))%float = true ->
   (snd (TextBlob text) <=? 1)%float = true ->
   (0 <=? subjectivity result)%float = true /\
   (subjectivity result <=? 1)%float = true).
Proof.
  cbv zeta. unfold analyze_sentiment. cbn [polarity subjectivity].
  split.
  - intros Hlo Hhi. apply (rounded_score_agrees _ Hlo Hhi).
  - intros H0 Hhi.
    destruct (rounded_score_agrees _ (nonnegative_is_above_minus_one _ H0) Hhi)
      as ((_ & Hle) & Hge & _).
    split; [apply Hge, H0 | exact Hle].
Qed.

(** X17.  The class never contradicts the stored polarity: for a polarity
    between -1 and 1, a positive result stores at least 0.1, a negative
    one at most -0.1, and a neutral one a value from -0.1 to 0.1. *)
Theorem class_agrees_with_stored_polarity
        (TextBlob : str -> float * float) (text : str) :
  (- 1 <=? fst (TextBlob text))%float = true ->
  (fst (TextBlob text) <=? 1)%float = true ->
  let result := analyze_sentiment TextBlob text in
  match sentiment result with
  | Positive => (0.1 <=? polarity result)%float = true
  | Negative => (polarity result <=? - 0.1)%float = true
  | Neutral => (- 0.1 <=? polarity result)%float = true /\
               (polarity result <=? 0.1)%float = true
  end.
Proof.
  intros Hlo Hhi. cbv zeta. unfold analyze_sentiment.
  cbn [sentiment polarity]. unfold classify_polarity.
  destruct (rounded_score_agrees _ Hlo Hhi) as (_ & _ & Hpos & Hneg & Hneu).
  destruct (0.1 <? fst (TextBlob text))%float; [apply Hpos; reflexivity|].
  destruct (fst (TextBlob text) <? - 0.1)%float; [apply Hneg; reflexivity|].
  apply Hneu; reflexivity.
Qed.

Lemma classify_polarity_opp (p : float) :
  classify_polarity (- p)
  = match classify_polarity p with
    | Positive => Negative
    | Negative => Positive
    | Neutral => Neutral
    end.
Proof.
  unfold classify_polarity.
  change (- p <? - 0.1)%float with (- p <? PrimFloat.opp 0.1)%float.
  rewrite (ltb_opp p 0.1).
  change (0.1 <? - p)%float with (PrimFloat.opp (- 0.1) <? - p)%float.
  rewrite (ltb_opp (- 0.1) p).
  pose proof (below_is_not_above p) as H.
  destruct (p <? - 0.1)%float; [rewrite (H eq_refl); reflexivity|].
  destruct (0.1 <? p)%float; reflexivity.
Qed.

(** X18.  The dead zone is symmetric: when a second run reports the
    opposite polarity, positive and negative are exchanged and neutral
    stays neutral. *)
Theorem opposite_polarity_gets_opposite_class
        (TextBlob1 TextBlob2 : str -> float * float) (text1 text2 : str) :
  fst (TextBlob2 text2) = (- fst (TextBlob1 text1))%float ->
  sentiment (analyze_sentiment TextBlob2 text2)
  = match sentiment (analyze_sentiment TextBlob1 text1) with
    | Positive => Negative
    | Negative => Positive
    | Neutral => Neutral
    end.
Proof.
  intros H. unfold analyze_sentiment. cbn [sentiment]. rewrite H.
  apply classify_polarity_opp.
Qed.

(** X19.  The class is monotone in the polarity: when a second run
    reports a polarity at least as high, a positive first result gives a
    positive second one, and a negative second result means the first was
    negative. *)
Theorem higher_polarity_never_lowers_class
        (TextBlob1 TextBlob2 : str -> float * float) (text1 text2 : str) :
  (fst (TextBlob1 text1) <=? fst (TextBlob2 text2))%float = true ->
  (sentiment (analyze_sentiment TextBlob1 text1) = Positive ->
   sentiment (analyze_sentiment TextBlob2 text2) = Positive) /\
  (sentiment (analyze_sentiment TextBlob2 text2) = Negative ->
   sentiment (analyze_sentiment TextBlob1 text1) = Negative).
Proof.
  unfold analyze_sentiment. cbn [sentiment].
  generalize (fst (TextBlob1 text1)) (fst (TextBlob2 text2)).
  intros p q Hle. unfold classify_polarity.
  assert (Hup : (0.1 <? p)%float = true -> (0.1 <? q)%float = true).
  { revert Hle. rewrite leb_spec, !ltb_spec. intros Hle Hlt.
    exact (SFcompare_lt_le_trans _ _ _ Hlt Hle). }
  assert (Hdown : (q <? - 0.1)%float = true -> (p <? - 0.1)%float = true).
  { revert Hle. rewrite leb_spec, !ltb_spec. intros Hle Hlt.
    exact (SFcompare_le_lt_trans _ _ _ Hle Hlt). }
  pose proof (below_is_not_above p) as Hp.
  split.
  - destruct (0.1 <? p)%float; [rewrite (Hup eq_refl); reflexivity|].
    destruct (p <? - 0.1)%float; discriminate.
  - destruct (0.1 <? q)%float; [discriminate|].
    destruct (q <? - 0.1)%float; [|discriminate].
    rewrite (Hdown eq_refl), (Hp (Hdown eq_refl)). reflexivity.
Qed.

(** ** Instances of the further properties *)

Lemma run_comments_have_bodies :
  Forall2 (fun comment body => dict_get comment (lit "body") = Some body)
          Run.comments [Stub.das_ist_grossartig; Stub.hello_there; []].
Proof. repeat constructor. Qed.

Lemma stub_detect_raises_only_LangDetectException (body : str) (e : exn) :
  Stub.detect body = Raise e -> isinstance e LangDetectException = true.
Proof.
  unfold Stub.detect.
  destruct (str_eqb body Stub.das_ist_grossartig); [discriminate|].
  destruct (str_eqb body []); [|discriminate].
  intros [= <-]. reflexivity.
Qed.

Lemma pipeline_language_is_named_witness :
  (detected_language Stub.scenario_record = lit "de" /\
   lang_name Stub.scenario_record = lit "German") \/
  (detected_language Stub.scenario_record = lit "es" /\
   lang_name Stub.scenario_record = lit "Spanish").
Proof.
  apply (pipeline_language_is_named Stub.detect Stub.translate_text
           Stub.TextBlob Stub.das_ist_grossartig).
  vm_compute. reflexivity.
Defined.

Lemma main_loop_keeps_supported_bodies_witness :
  snd (main_loop Stub.detect Stub.translate_text Stub.TextBlob Run.comments [])
  = Return (records_of Stub.detect Stub.translate_text Stub.TextBlob
                       [Stub.das_ist_grossartig; Stub.hello_there; []]) /\
  map original_text
      (records_of Stub.detect Stub.translate_text Stub.TextBlob
                  [Stub.das_ist_grossartig; Stub.hello_there; []])
  = filter (supported_body Stub.detect)
           [Stub.das_ist_grossartig; Stub.hello_there; []] /\
  List.length (records_of Stub.detect Stub.translate_text Stub.TextBlob
                          [Stub.das_ist_grossartig; Stub.hello_there; []])
  = List.length (filter (supported_body Stub.detect)
                        [Stub.das_ist_grossartig; Stub.hello_there; []]).
Proof.
  apply (main_loop_keeps_supported_bodies
           Stub.detect Stub.translate_text Stub.TextBlob Run.comments).
  - exact run_comments_have_bodies.
  - intros body e _. apply stub_detect_raises_only_LangDetectException.
Defined.


Lemma main_without_environment_witness :
  main Stub.detect Stub.translate_text Stub.TextBlob Stub.requests_post
       Run.requests_get Run.getenv_no_token Run.load_event
  = ([Print (lit "[v0] Missing required environment variables")], Return tt).
Proof.
  apply main_without_environment. left. reflexivity.
Defined.

Lemma main_with_environment_witness :
  main Stub.detect Stub.translate_text Stub.TextBlob Stub.requests_post
       Run.requests_get Run.getenv Run.load_push_event
  = ([Print (lit "[v0] No PR number found in event")], Return tt) /\
  main Stub.detect Stub.translate_text Stub.TextBlob Stub.requests_post
       Run.requests_get Run.getenv Run.load_event
  = main_analyze Stub.detect Stub.translate_text Stub.TextBlob
                 Stub.requests_post Run.requests_get
                 (lit "t0ken") (lit "octo/demo") 7.
Proof.
  split.
  - apply (proj1 (proj2 (main_with_environment
                           Stub.detect Stub.translate_text Stub.TextBlob
                           Stub.requests_post Run.requests_get Run.getenv
                           Run.load_push_event
                           (lit "t0ken") (lit "octo/demo") (lit "/event.json")
                           eq_refl eq_refl eq_refl
                           ltac:(discriminate) ltac:(discriminate)
                           ltac:(discriminate)))
             {| pull_request := None |} eq_refl).
    left. reflexivity.
  - apply (proj2 (proj2 (main_with_environment
                           Stub.detect Stub.translate_text Stub.TextBlob
                           Stub.requests_post Run.requests_get Run.getenv
                           Run.load_event
                           (lit "t0ken") (lit "octo/demo") (lit "/event.json")
                           eq_refl eq_refl eq_refl
                           ltac:(discriminate) ltac:(discriminate)
                           ltac:(discriminate)))
             {| pull_request := Some {| number := Some 7%Z |} |}
             {| number := Some 7%Z |} 7%Z eq_refl eq_refl eq_refl).
    discriminate.
Defined.

Lemma main_analyze_posts_the_report_witness :
  posts (fst (main_analyze Stub.detect Stub.translate_text Stub.TextBlob
                           Stub.requests_post Run.requests_get
                           (lit "t0ken") (lit "octo/demo") 7))
  = match records_of Stub.detect Stub.translate_text Stub.TextBlob
                     [Stub.das_ist_grossartig; Stub.hello_there; []] with
    | [] => []
    | _ :: _ =>
        [HttpPost (lit "https://api.github.com/repos/" ++ lit "octo/demo"
                     ++ lit "/issues/" ++ str_of_int 7 ++ lit "/comments")
                  (headers (init (lit "t0ken")))
                  [(lit "body",
                    report_header
                      ++ List.concat
                           (map render_row
                                (records_of Stub.detect Stub.translate_text
                                            Stub.TextBlob
                                            [Stub.das_ist_grossartig;
                                             Stub.hello_there; []])))]]
    end.
Proof.
  apply (main_analyze_posts_the_report
           Stub.detect Stub.translate_text Stub.TextBlob Stub.requests_post
           Run.requests_get (lit "t0ken") (lit "octo/demo") 7
           {| status_code := 200; response_json := Return Run.comments |}
           Run.comments).
  - reflexivity.
  - reflexivity.
  - reflexivity.
  - exact run_comments_have_bodies.
  - intros body e _. apply stub_detect_raises_only_LangDetectException.
Defined.

Lemma main_analyze_aborts_without_body_witness :
  (exists e,
      snd (main_analyze Stub.detect Stub.translate_text Stub.TextBlob
                        Stub.requests_post Run.requests_get_no_body
                        (lit "t0ken") (lit "octo/demo") 7) = Raise e) /\
  posts (fst (main_analyze Stub.detect Stub.translate_text Stub.TextBlob
                           Stub.requests_post Run.requests_get_no_body
                           (lit "t0ken") (lit "octo/demo") 7)) = [] /\
  snd (main_analyze Stub.detect Stub.translate_text Stub.TextBlob
                    Stub.requests_post Run.requests_get_no_body
                    (lit "t0ken") (lit "octo/demo") 7)
  = Raise (mk_exn KeyError (lit "'body'")).
Proof.
  destruct (main_analyze_aborts_without_body
              Stub.detect Stub.translate_text Stub.TextBlob Stub.requests_post
              Run.requests_get_no_body (lit "t0ken") (lit "octo/demo") 7
              {| status_code := 200;
                 response_json := Return (Run.comments ++ [Run.no_body]) |}
              (Run.comments ++ [Run.no_body]))
    as (Hraises & Hposts & Hkey).
  - reflexivity.
  - reflexivity.
  - reflexivity.
  - apply Exists_exists. exists Run.no_body. split; [|reflexivity].
    apply in_or_app. right. left. reflexivity.
  - split; [exact Hraises|]. split; [exact Hposts|].
    apply Hkey.
    intros comment body e _ _. apply stub_detect_raises_only_LangDetectException.
Defined.

Lemma translate_to_english_outcomes_witness :
  translate_to_english Stub.translate_text Stub.das_ist_grossartig (lit "de")
  = ([], Return (lit "That's great!")) /\
  translate_to_english Stub.translate_malformed Stub.das_ist_grossartig (lit "de")
  = ([Print (lit "[v0] Translation error: 'translatedText'")],
     Return Stub.das_ist_grossartig) /\
  translate_to_english Stub.translate_fails Stub.das_ist_grossartig (lit "de")
  = ([Print (lit "[v0] Translation error: 503 quota exceeded")],
     Return Stub.das_ist_grossartig).
Proof.
  split; [|split].
  - apply (proj1 (translate_to_english_outcomes
                    Stub.translate_text Stub.das_ist_grossartig (lit "de"))
             [(lit "translatedText", lit "That's great!")]);
      reflexivity.
  - apply (proj1 (proj2 (translate_to_english_outcomes
                           Stub.translate_malformed Stub.das_ist_grossartig
                           (lit "de")))
             [(lit "error", lit "bad request")]);
      reflexivity.
  - apply (proj2 (proj2 (translate_to_english_outcomes
                           Stub.translate_fails Stub.das_ist_grossartig
                           (lit "de")))
             Stub.unavailable);
      reflexivity.
Defined.

Lemma process_comment_detection_errors_witness :
  process_comment Edge.detect_fails Stub.translate_text Stub.TextBlob
                  Stub.hello_there
  = ([], Raise Edge.runtime_error) /\
  process_comment Stub.detect Stub.translate_text Stub.TextBlob []
  = ([], Return None).
Proof.
  split.
  - apply (proj1 (process_comment_detection_errors
                    Edge.detect_fails Stub.translate_text Stub.TextBlob
                    Stub.hello_there Edge.runtime_error eq_refl));
      reflexivity.
  - apply (proj2 (process_comment_detection_errors
                    Stub.detect Stub.translate_text Stub.TextBlob
                    [] Stub.no_features eq_refl));
      reflexivity.
Defined.

Lemma main_analyze_fetch_refused_witness :
  main_analyze Stub.detect Stub.translate_text Stub.TextBlob
               Stub.requests_post Run.requests_get_forbidden
               (lit "t0ken") (lit "octo/demo") 7
  = ([Print (lit "[v0] Processing PR #" ++ str_of_int 7
               ++ lit " in " ++ lit "octo/demo");
      Print (lit "[v0] Error fetching comments: " ++ str_of_int 403);
      Print (lit "[v0] Found 0 comments");
      Print (lit "[v0] No non-English comments found to analyze")],
     Return tt).
Proof.
  apply (main_analyze_fetch_refused
           Stub.detect Stub.translate_text Stub.TextBlob Stub.requests_post
           Run.requests_get_forbidden (lit "t0ken") (lit "octo/demo") 7
           {| status_code := 403; response_json := Return Run.comments |}).
  - reflexivity.
  - discriminate.
Defined.

Lemma stored_scores_stay_in_range_witness :
  ((- 1 <=? polarity (analyze_sentiment (Stub.scorer 0.996 0.004) Stub.hello_there))%float
   = true /\
   (polarity (analyze_sentiment (Stub.scorer 0.996 0.004) Stub.hello_there) <=? 1)%float
   = true) /\
  ((0 <=? subjectivity (analyze_sentiment (Stub.scorer 0.996 0.004) Stub.hello_there))%float
   = true /\
   (subjectivity (analyze_sentiment (Stub.scorer 0.996 0.004) Stub.hello_there) <=? 1)%float
   = true).
Proof.
  destruct (stored_scores_stay_in_range (Stub.scorer 0.996 0.004) Stub.hello_there)
    as [Hp Hs].
  split; [apply Hp | apply Hs]; reflexivity.
Defined.

Lemma class_agrees_with_stored_polarity_witness :
  (0.1 <=? polarity (analyze_sentiment (Stub.scorer 0.104 0.5) Stub.hello_there))%float
  = true.
Proof.
  apply (class_agrees_with_stored_polarity (Stub.scorer 0.104 0.5)
           Stub.hello_there); reflexivity.
Defined.

Lemma opposite_polarity_gets_opposite_class_witness :
  sentiment (analyze_sentiment (Stub.scorer (- 0.8) 0.75) Stub.hello_there)
  = match sentiment (analyze_sentiment Stub.TextBlob Stub.das_ist_grossartig) with
    | Positive => Negative
    | Negative => Positive
    | Neutral => Neutral
    end.
Proof.
  apply opposite_polarity_gets_opposite_class. reflexivity.
Defined.

Lemma higher_polarity_never_lowers_class_witness :
  sentiment (analyze_sentiment (Stub.scorer 0.9 0.1) Stub.das_ist_grossartig)
  = Positive.
Proof.
  apply (proj1 (higher_polarity_never_lowers_class
                  (Stub.scorer 0.104 0.5) (Stub.scorer 0.9 0.1)
                  Stub.hello_there Stub.das_ist_grossartig eq_refl)).
  reflexivity.
Defined.
